(** * Hypernode facilitator: payment-intent lifecycle and escrow settlement

    A shallow embedding of the x402 payment path of the Hypernode
    facilitator backend: the Redis-backed Express middleware
    ([x402Middleware], [x402UsageMarker]), the oracle service endpoint
    ([POST /submit-usage]), the facilitator routes ([POST /complete-job])
    and the facilitator client ([FacilitatorClient], [getFacilitatorClient]).

    The intent ledger (the Redis store), the signature verifier and the
    on-chain settlement program are not among the JavaScript sources; they are
    modelled from the specification and marked as such. *)

From stdpp Require Import gmap strings list fin_maps.
From Stdlib Require Import ZArith Lia.

Local Open Scope string_scope.
Local Open Scope Z_scope.

(** ** Data model *)

(** A payment intent, with the fields of the [PaymentIntent] interface.
    Timestamps are milliseconds; [metadata] is an opaque key/value list. *)
Record PaymentIntent := mkIntent {
  intentId  : string;
  client    : string;
  amount    : Z;
  jobId     : string;
  timestamp : Z;
  expiresAt : Z;
  nonce     : string;
  metadata  : list (string * string)
}.

(** The ledger's view of an intent. *)
Record LedgerEntry := mkEntry {
  le_intent    : PaymentIntent;
  le_signature : string;
  consumed     : bool;
  storedAt     : Z;
  le_expiresAt : Z
}.

Definition set_consumed (e : LedgerEntry) : LedgerEntry :=
  {| le_intent := le_intent e; le_signature := le_signature e;
     consumed := true; storedAt := storedAt e;
     le_expiresAt := le_expiresAt e |}.

(** ** Intent ledger *)

Module Ledger.

Abbreviation t := (gmap string LedgerEntry).

(** Modelled from the spec: the Redis store class
    ([RedisPaymentIntentStore], x402-redis-store.js) is not among the
    sources; only its test and its callers are.  [store] is the
    idempotent insert: an existing entry is left as it is. *)
Definition store (now : Z) (i : PaymentIntent) (sig : string) (l : t) : t :=
  match l !! intentId i with
  | Some _ => l
  | None =>
      <[intentId i := {| le_intent := i; le_signature := sig;
                         consumed := false; storedAt := now;
                         le_expiresAt := expiresAt i |}]> l
  end.


(** Modelled from the spec: [isUsed] of the absent store. *)
Definition isUsed (id : string) (l : t) : bool :=
  match l !! id with
  | Some e => consumed e
  | None => false
  end.

(** Modelled from the spec: [markUsed] of the absent store, one atomic
    compare-and-set on [consumed]; true only for the 0 -> 1 transition. *)
Definition markUsed (id : string) (l : t) : t * bool :=
  match l !! id with
  | Some e =>
      if consumed e then (l, false)
      else (<[id := set_consumed e]> l, true)
  | None => (l, false)
  end.

Definition expired (now : Z) (e : LedgerEntry) : bool := le_expiresAt e <=? now.

(** Modelled from the spec: [cleanup] of the absent store deletes the
    entries past expiry and returns how many it deleted. *)
Definition cleanup (now : Z) (l : t) : t * nat :=
  let kept := filter (λ kv, expired now kv.2 = false) l in
  (kept, (size l - size kept)%nat).

End Ledger.

(** ** The x402 middleware (Redis-backed, asynchronous) *)

(** What [X402Verifier.verify] returns: [{ valid, error }]. *)
Record VerifyResult := mkVerify { valid : bool; error : string }.

(** The two library entry points the middleware calls and whose bodies are
    in x402.js: decoding of the header ([JSON.parse], the destructuring and
    [new PaymentIntent(intent)], with the message of the exception when one
    of them throws) and the synchronous [X402Verifier.verify], which is
    given the intent, the signature and the intent's [client], and no
    store. *)
Class X402Lib := {
  decode_header : string → string + PaymentIntent * string;
  X402Verifier_verify : Z → PaymentIntent → string → string → VerifyResult
}.

(** The request as the middleware reads it: the [x-payment-intent] header. *)
Record Request := mkRequest { x_payment_intent : option string }.

(** [res.status(s).json({ error, message })]. *)
Record Response := mkResponse {
  status : Z;
  resp_error : string;
  resp_message : string
}.

Inductive MwOutcome :=
| Responded (r : Response)
| CalledNext (paymentIntent : PaymentIntent) (paymentSignature : string).

Definition missing_header : Response :=
  mkResponse 402 "Payment Required" "x402: Missing payment intent header".

Definition bad_request (msg : string) : Response :=
  mkResponse 400 "Bad Request" ("x402: " +:+ msg).

Definition payment_required (err : string) : Response :=
  mkResponse 402 "Payment Required" ("x402: " +:+ err).

Definition conflict : Response :=
  mkResponse 409 "Conflict" "Payment intent already used or expired".

(** JavaScript's [!authHeader]: an absent header and the empty string. *)
Definition header_present (r : Request) : option string :=
  match x_payment_intent r with
  | Some "" => None
  | other => other
  end.

(** Lines 23-54 of the middleware: everything before the first [await]. *)
Inductive Checked :=
| Rejected (r : Response)
| Verified_ok (i : PaymentIntent) (sig : string).

Definition mw_check `{X402Lib} (now : Z) (r : Request) : Checked :=
  match header_present r with
  | None => Rejected missing_header
  | Some h =>
      match decode_header h with
      | inl msg => Rejected (bad_request msg)
      | inr (i, sig) =>
          let verification := X402Verifier_verify now i sig (client i) in
          if valid verification then Verified_ok i sig
          else Rejected (payment_required (error verification))
      end
  end.

(** [x402Middleware], one request run from entry to its response or to
    [next()], with no other request in between. *)
Definition x402Middleware `{X402Lib} (now : Z) (r : Request) (st : Ledger.t)
  : MwOutcome * Ledger.t :=
  match mw_check now r with
  | Rejected resp => (Responded resp, st)
  | Verified_ok i sig =>
      if Ledger.isUsed (intentId i) st then (Responded conflict, st)
      else (CalledNext i sig, Ledger.store now i sig st)
  end.

(** [x402UsageMarker]: marks [req.paymentIntent] as used, when there is one;
    the result of [markUsed] is not looked at. *)
Definition x402UsageMarker (paymentIntent : option PaymentIntent) (st : Ledger.t)
  : Ledger.t :=
  match paymentIntent with
  | Some i => (Ledger.markUsed (intentId i) st).1
  | None => st
  end.

(** *** Interleaved requests

    Every [await] of the middleware is a point where another request can
    run.  A request is at one of these places; a step runs it up to its next
    [await] (or to its end). *)
Inductive Pc :=
| AtEntry
| AfterIsUsed (i : PaymentIntent) (sig : string) (alreadyUsed : bool)
| AfterStore (i : PaymentIntent) (sig : string)
| InHandler (i : PaymentIntent)
| Finished (r : option Response).

(** The shared world: the ledger, and the intents handed to the downstream
    handler ([req.paymentIntent] attached, [next()] called), in order. *)
Record World := mkWorld {
  w_store : Ledger.t;
  w_handled : list PaymentIntent
}.

Definition mw_step `{X402Lib} (now : Z) (r : Request) (pc : Pc) (w : World)
  : Pc * World :=
  match pc with
  | AtEntry =>
      match mw_check now r with
      | Rejected resp => (Finished (Some resp), w)
      | Verified_ok i sig =>
          (AfterIsUsed i sig (Ledger.isUsed (intentId i) (w_store w)), w)
      end
  | AfterIsUsed i sig true => (Finished (Some conflict), w)
  | AfterIsUsed i sig false =>
      (AfterStore i sig,
       mkWorld (Ledger.store now i sig (w_store w)) (w_handled w))
  | AfterStore i sig =>
      (InHandler i, mkWorld (w_store w) (w_handled w ++ [i])%list)
  | InHandler i =>
      (Finished None, mkWorld (x402UsageMarker (Some i) (w_store w)) (w_handled w))
  | Finished r => (Finished r, w)
  end.

(** A schedule names, step after step, the request that runs next. *)
Fixpoint run_schedule `{X402Lib} (now : Z) (reqs : list Request)
    (sched : list nat) (pcs : list Pc) (w : World) : list Pc * World :=
  match sched with
  | [] => (pcs, w)
  | k :: rest =>
      match reqs !! k, pcs !! k with
      | Some r, Some pc =>
          let '(pc', w') := mw_step now r pc w in
          run_schedule now reqs rest (<[k := pc']> pcs) w'
      | _, _ => run_schedule now reqs rest pcs w
      end
  end.

Definition count_handled (id : string) (w : World) : nat :=
  length (filter (λ i, intentId i = id) (w_handled w)).

(** ** Signature verifier and escrow settlement machine *)

(** Modelled from the spec: the signature verifier (x402.js), the adapter
    that settles a payment (x402-solana-adapter.js) and the on-chain
    program are not among the sources; only their callers and their
    documentation are.  The records, the states and the transitions of this
    module follow the data model and the component design of the
    specification. *)
Module Settlement.

(** The rejection reasons and errors of the protocol. *)
Inductive Error :=
| MalformedPayment
| InvalidSignature
| SignerMismatch
| Expired
| InsufficientAmount
| AssetMismatch
| AlreadyUsed
| AuthorizationFailed
| UnauthorizedOracle
| NodeInactive
| DuplicateProof
| InvalidProofFormat
| CannotCancel.

Inductive Status :=
| Pending
| Authorized
| Escrowed
| Verified
| Settled
| Cancelled
| StatusExpired.

Record EscrowRecord := mkEscrow {
  er_intentId : string;
  er_client : string;
  er_amount : Z;
  er_status : Status;
  assignedNodeId : option string;
  er_createdAt : Z;
  er_expiresAt : Z;
  settledAt : option Z
}.

Record UsageProof := mkProof {
  proofId : string;
  up_intentId : string;
  up_nodeId : string;
  executionHash : string;
  logsHash : string;
  oracleSignature : string;
  submittedAt : Z;
  verified : bool
}.

Record NodeRecord := mkNode {
  nodeId : string;
  authority : string;
  stakeAmount : Z;
  totalEarned : Z;
  jobsCompleted : Z;
  isActive : bool
}.

(** What the oracle submits. *)
Record ProofData := mkProofData {
  pd_intentId : string;
  pd_nodeId : string;
  pd_executionHash : string;
  pd_logsHash : string;
  pd_oracleSignature : string
}.

(** The whole protocol state: ledger, escrow records, nodes, accepted
    proofs, the value-transfer backend (free balance per account, locked
    balance per intent) and the configuration (trusted oracle, token). *)
Record Machine := mkMachine {
  m_ledger : gmap string LedgerEntry;
  m_escrows : gmap string EscrowRecord;
  m_nodes : gmap string NodeRecord;
  m_proofs : gmap string UsageProof;
  m_balances : gmap string Z;
  m_locked : gmap string Z;
  m_oracle : string;
  m_asset : string
}.

Definition with_ledger (l : gmap string LedgerEntry) (m : Machine) : Machine :=
  mkMachine l (m_escrows m) (m_nodes m) (m_proofs m) (m_balances m)
            (m_locked m) (m_oracle m) (m_asset m).

Definition balance_of (a : string) (m : Machine) : Z := default 0 (m_balances m !! a).
Definition locked_of (id : string) (m : Machine) : Z := default 0 (m_locked m !! id).

(** A small state monad over the machine. *)
Definition M (A : Type) : Type := Machine → A * Machine.
Definition ret {A} (a : A) : M A := λ m, (a, m).
Definition bind {A B} (c : M A) (k : A → M B) : M B :=
  λ m, let '(a, m') := c m in k a m'.
Definition read {A} (f : Machine → A) : M A := λ m, (f m, m).
Definition write (f : Machine → Machine) : M unit := λ m, (tt, f m).

#[global] Instance M_ret : MRet M := @ret.
#[global] Instance M_bind : MBind M := λ A B k c, bind c k.

(** The signing message and the signature scheme are outside the protocol
    state machine. *)
Class Crypto := {
  toSigningMessage : PaymentIntent → string;
  signature_valid : string → string → string → bool
}.

(** What the caller requires of a payment, when it requires something. *)
Record Requirements := mkReq {
  required_amount : option Z;
  required_asset : option string
}.

Definition no_requirements : Requirements := mkReq None None.

Definition amount_ok (rq : Requirements) (i : PaymentIntent) : bool :=
  match required_amount rq with
  | Some a => a <=? amount i
  | None => true
  end.

Definition asset_ok (rq : Requirements) (asset : string) : bool :=
  match required_asset rq with
  | Some a => String.eqb a asset
  | None => true
  end.

(** Modelled from the spec: the signature verifier ([X402Verifier.verify],
    x402.js) is not among the sources.  The six checks in the order the
    specification lists them; [None] is [{valid: true}], [Some r] is
    [{valid: false, reason: r}]. *)
Definition verify `{Crypto} (now : Z) (rq : Requirements) (i : PaymentIntent)
    (sig signer : string) : M (option Error) :=
  if negb (signature_valid (toSigningMessage i) sig signer)
  then ret (Some InvalidSignature)
  else if negb (String.eqb (client i) signer) then ret (Some SignerMismatch)
  else if negb (now <? expiresAt i) then ret (Some Expired)
  else if negb (amount_ok rq i) then ret (Some InsufficientAmount)
  else
    asset ← read m_asset ;
    if negb (asset_ok rq asset) then ret (Some AssetMismatch)
    else
      used ← read (λ m, Ledger.isUsed (intentId i) (m_ledger m)) ;
      if (used : bool) then ret (Some AlreadyUsed) else ret (@None Error).

Definition ledger_store (now : Z) (i : PaymentIntent) (sig : string) : M unit :=
  write (λ m, with_ledger (Ledger.store now i sig (m_ledger m)) m).

Definition ledger_markUsed (id : string) : M bool :=
  λ m, let '(l, b) := Ledger.markUsed id (m_ledger m) in (b, with_ledger l m).

Definition ledger_cleanup (now : Z) : M nat :=
  λ m, let '(l, n) := Ledger.cleanup now (m_ledger m) in (n, with_ledger l m).

(** The value-transfer backend: lock [a] units of [payer] under [id]. *)
Definition lock_funds (id payer : string) (a : Z) (m : Machine) : Machine :=
  mkMachine (m_ledger m) (m_escrows m) (m_nodes m) (m_proofs m)
            (<[payer := balance_of payer m - a]> (m_balances m))
            (<[id := a]> (m_locked m)) (m_oracle m) (m_asset m).

(** The value-transfer backend: move what is locked under [id] to [payee]. *)
Definition release_funds (id payee : string) (m : Machine) : Machine :=
  mkMachine (m_ledger m) (m_escrows m) (m_nodes m) (m_proofs m)
            (<[payee := balance_of payee m + locked_of id m]> (m_balances m))
            (<[id := 0]> (m_locked m)) (m_oracle m) (m_asset m).

Definition put_escrow (id : string) (r : EscrowRecord) (m : Machine) : Machine :=
  mkMachine (m_ledger m) (<[id := r]> (m_escrows m)) (m_nodes m)
            (m_proofs m) (m_balances m) (m_locked m) (m_oracle m) (m_asset m).

Definition put_node (id : string) (n : NodeRecord) (m : Machine) : Machine :=
  mkMachine (m_ledger m) (m_escrows m) (<[id := n]> (m_nodes m))
            (m_proofs m) (m_balances m) (m_locked m) (m_oracle m) (m_asset m).

Definition put_proof (id : string) (p : UsageProof) (m : Machine) : Machine :=
  mkMachine (m_ledger m) (m_escrows m) (m_nodes m)
            (<[id := p]> (m_proofs m)) (m_balances m) (m_locked m)
            (m_oracle m) (m_asset m).

Definition set_status (s : Status) (r : EscrowRecord) : EscrowRecord :=
  mkEscrow (er_intentId r) (er_client r) (er_amount r) s (assignedNodeId r)
           (er_createdAt r) (er_expiresAt r) (settledAt r).

Definition settle_record (node : string) (now : Z) (r : EscrowRecord) : EscrowRecord :=
  mkEscrow (er_intentId r) (er_client r) (er_amount r) Settled (Some node)
           (er_createdAt r) (er_expiresAt r) (Some now).

Definition credit_node (a : Z) (n : NodeRecord) : NodeRecord :=
  mkNode (nodeId n) (authority n) (stakeAmount n) (totalEarned n + a)
         (jobsCompleted n + 1) (isActive n).

(** Modelled from the spec: the Authorize transition (the on-chain program
    and the adapter that calls it are not among the sources).  Verification,
    then the idempotent [store] and the [markUsed] compare-and-set, then
    the lock; the record becomes [Authorized] and, the lock confirmed,
    [Escrowed]. *)
Definition authorize `{Crypto} (now : Z) (rq : Requirements) (i : PaymentIntent)
    (sig : string) : M (Error + EscrowRecord) :=
  v ← verify now rq i sig (client i) ;
  match (v : option Error) with
  | Some e => ret (inl e)
  | None =>
      _ ← ledger_store now i sig ;
      marked ← ledger_markUsed (intentId i) ;
      if negb marked then ret (inl AlreadyUsed)
      else
        bal ← read (balance_of (client i)) ;
        if bal <? amount i then ret (inl AuthorizationFailed)
        else
          let r0 := mkEscrow (intentId i) (client i) (amount i) Authorized None
                             now (expiresAt i) None in
          _ ← write (put_escrow (intentId i) r0) ;
          _ ← write (lock_funds (intentId i) (client i) (amount i)) ;
          let r1 := set_status Escrowed r0 in
          _ ← write (put_escrow (intentId i) r1) ;
          ret (inr r1)
  end.

Definition is_hex_char (c : Ascii.ascii) : bool :=
  let n := Ascii.nat_of_ascii c in
  ((48 <=? n) && (n <=? 57) || (97 <=? n) && (n <=? 102)
   || (65 <=? n) && (n <=? 70))%nat.

Fixpoint all_hex (s : string) : bool :=
  match s with
  | EmptyString => true
  | String c s' => is_hex_char c && all_hex s'
  end.

(** A hash is well formed when it is 64 hexadecimal characters. *)
Definition well_formed_hash (s : string) : bool :=
  (String.length s =? 64)%nat && all_hex s.

Definition status_eqb (a b : Status) : bool :=
  match a, b with
  | Pending, Pending | Authorized, Authorized | Escrowed, Escrowed
  | Verified, Verified | Settled, Settled | Cancelled, Cancelled
  | StatusExpired, StatusExpired => true
  | _, _ => false
  end.

(** Modelled from the spec: the SubmitUsageProof transition of the absent
    on-chain program.  The node credited is the one the proof names; it
    becomes the record's assigned node. *)
Definition submitUsageProof (now : Z) (pd : ProofData) (oracleIdentity : string)
  : M (Error + EscrowRecord) :=
  λ m,
  let id := pd_intentId pd in
  if negb (String.eqb oracleIdentity (m_oracle m)) then (inl UnauthorizedOracle, m)
  else
    match m_escrows m !! id with
    | None => (inl InvalidProofFormat, m)
    | Some r =>
        if negb (status_eqb (er_status r) Escrowed) then (inl InvalidProofFormat, m)
        else if bool_decide (is_Some (m_proofs m !! id))
        then (inl DuplicateProof, m)
        else if negb (well_formed_hash (pd_executionHash pd)
                      && well_formed_hash (pd_logsHash pd))
        then (inl InvalidProofFormat, m)
        else
          match m_nodes m !! pd_nodeId pd with
          | None => (inl NodeInactive, m)
          | Some n =>
              if negb (isActive n) then (inl NodeInactive, m)
              else
                let p := mkProof id id (pd_nodeId pd)
                                 (pd_executionHash pd) (pd_logsHash pd)
                                 (pd_oracleSignature pd) now true in
                let m1 := put_proof id p (put_escrow id (set_status Verified r) m) in
                let r' := settle_record (pd_nodeId pd) now r in
                let m2 := release_funds id (pd_nodeId pd) m1 in
                let m3 := put_node (pd_nodeId pd) (credit_node (er_amount r) n) (put_escrow id r' m2) in
                (inr r', m3)
          end
    end.

Definition open_status (s : Status) : bool :=
  status_eqb s Authorized || status_eqb s Escrowed.

(** Modelled from the spec: the Cancel transition. *)
Definition cancel (id requester : string) : M (Error + EscrowRecord) :=
  λ m,
  match m_escrows m !! id with
  | None => (inl CannotCancel, m)
  | Some r =>
      if open_status (er_status r) && String.eqb requester (er_client r) then
        let r' := set_status Cancelled r in
        (inr r', put_escrow id r' (release_funds id (er_client r) m))
      else (inl CannotCancel, m)
  end.

(** Modelled from the spec: the Expire transition; a no-op unless the
    deadline has passed and the record is still open. *)
Definition expire (now : Z) (id : string) : M bool :=
  λ m,
  match m_escrows m !! id with
  | None => (false, m)
  | Some r =>
      if open_status (er_status r) && (er_expiresAt r <=? now) then
        (true, put_escrow id (set_status StatusExpired r) (release_funds id (er_client r) m))
      else (false, m)
  end.

End Settlement.

(** ** The oracle service *)

Module OracleService.

(** The body of [POST /submit-usage]; a field the sender left out is
    [undefined]. *)
Record UsageReport := mkReport {
  node : option string;
  task_id : option string;
  tokens_due : option Z;
  signature : option string
}.

Record Reply := mkReply { reply_status : Z; reply_body_status : string }.

(** [POST /submit-usage]: destructures the body, logs it and answers.  The
    second component is what the handler sends on to the chain: nothing. *)
Definition submit_usage (body : UsageReport) : Reply * list string :=
  let '(mkReport node task_id tokens_due signature) := body in
  (mkReply 200 "accepted", []).

Definition accepted (r : Reply) : bool :=
  (reply_status r =? 200) && String.eqb (reply_body_status r) "accepted".

End OracleService.

(** ** The facilitator client *)

Module Client.

Record IntentData := mkIntentData {
  d_intentId : string;
  d_amount : Z;
  d_expiresAt : Z
}.

Record AuthorizeAccounts := mkAuthAccounts {
  a_paymentIntent : string;
  a_client : string;
  a_escrow : string;
  a_clientTokenAccount : string;
  a_escrowTokenAccount : string;
  a_tokenProgram : string
}.

Record UsageProofData := mkUsageProofData {
  p_intentId : string;
  p_nodeId : string;
  p_executionHash : string;
  p_logsHash : string
}.

Record ProofAccounts := mkProofAccounts {
  a_usageProof : string;
  a_proofPaymentIntent : string;
  a_node : string;
  a_oracle : string;
  a_proofEscrow : string;
  a_nodeTokenAccount : string;
  a_proofTokenProgram : string
}.

(** A transaction as [program.methods.<name>(data).accounts(..).signers(..)]
    builds it. *)
Inductive Instruction :=
| IxAuthorizePayment (data : IntentData) (accounts : AuthorizeAccounts)
| IxSubmitUsageProof (data : UsageProofData) (accounts : ProofAccounts)
                     (signers : list string).

(** The chain as the backend sees it: the transactions sent so far. *)
Abbreviation Chain := (list Instruction).

(** The Solana libraries and the deployed program, which the client calls
    and which are outside the repository.  Public keys are their base58
    strings; a call that can throw returns [inl] of the message. *)
Class Solana := {
  HYPER_MINT : string;
  TOKEN_PROGRAM_ID : string;
  PublicKey_new : string → string + string;
  findProgramAddressSync : list string → string → string + string * Z;
  getAssociatedTokenAddress : string → string → bool → string + string;
  rpc : Instruction → Chain → string + string;
  sha256_hex : string → string;
  stringify_execution : string → string → Z → string;
  stringify_timestamp : Z → string
}.

(** The fields of a constructed [FacilitatorClient] that its methods read. *)
Record FacilitatorClient := mkClient {
  programId : string;
  oracleAuthority : string
}.

(** The default export: a constructed client, or the object literal that
    [getFacilitatorClient] builds in its [catch]. *)
Inductive Instance_ :=
| Real (c : FacilitatorClient)
| Mock.

Record AuthorizeResult := mkAuthResult {
  ar_success : option bool;
  ar_paymentIntent : option string;
  ar_escrow : string;
  ar_txSignature : string;
  ar_amount : option Z
}.

Record ProofResult := mkProofResult {
  pr_success : option bool;
  pr_usageProof : option string;
  pr_txSignature : string
}.

(** Sequencing of calls that can throw. *)
Definition try_bind {A B} (x : string + A) (k : A → string + B) : string + B :=
  match x with
  | inl e => inl e
  | inr a => k a
  end.

Definition derive `{Solana} (tag : string) (c : FacilitatorClient) (id : string)
  : string + string * Z :=
  findProgramAddressSync [tag; id] (programId c).

Definition deriveNodePDA `{Solana} := derive "node".
Definition derivePaymentIntentPDA `{Solana} := derive "intent".
Definition deriveUsageProofPDA `{Solana} := derive "proof".

(** The accounts [authorizePayment] derives before it sends. *)
Definition authorize_accounts `{Solana} (c : FacilitatorClient)
    (clientPubkey intentId : string) : string + AuthorizeAccounts :=
  try_bind (PublicKey_new clientPubkey) (λ client,
  try_bind (derivePaymentIntentPDA c intentId) (λ '(paymentIntent, _),
  try_bind (findProgramAddressSync ["escrow"; intentId] (programId c)) (λ '(escrow, _),
  try_bind (getAssociatedTokenAddress HYPER_MINT client false) (λ clientTokenAccount,
  try_bind (getAssociatedTokenAddress HYPER_MINT escrow true) (λ escrowTokenAccount,
  inr (mkAuthAccounts paymentIntent client escrow clientTokenAccount
                      escrowTokenAccount TOKEN_PROGRAM_ID)))))).

(** The accounts [submitUsageProof] derives before it sends. *)
Definition proof_accounts `{Solana} (c : FacilitatorClient)
    (intentId nodeId : string) : string + ProofAccounts :=
  try_bind (deriveUsageProofPDA c intentId) (λ '(usageProof, _),
  try_bind (derivePaymentIntentPDA c intentId) (λ '(paymentIntent, _),
  try_bind (deriveNodePDA c nodeId) (λ '(nodeAccount, _),
  try_bind (findProgramAddressSync ["escrow"; intentId] (programId c)) (λ '(escrow, _),
  try_bind (getAssociatedTokenAddress HYPER_MINT nodeAccount true) (λ nodeTokenAccount,
  inr (mkProofAccounts usageProof paymentIntent nodeAccount (oracleAuthority c)
                       escrow nodeTokenAccount TOKEN_PROGRAM_ID)))))).

(** Sends a transaction: the chain grows by it when the program accepts it. *)
Definition send `{Solana} (ix : Instruction) (ch : Chain) : (string + string) * Chain :=
  match rpc ix ch with
  | inl e => (inl e, ch)
  | inr sig => (inr sig, (ch ++ [ix])%list)
  end.

(** [authorizePayment]: an exception is logged and thrown again. *)
Definition authorizePayment `{Solana} (i : Instance_)
    (clientPubkey intentId : string) (amount expiresAt : Z) (ch : Chain)
  : (string + AuthorizeResult) * Chain :=
  match i with
  | Mock => (inr (mkAuthResult None None "mock-escrow" "mock-tx" None), ch)
  | Real c =>
      match authorize_accounts c clientPubkey intentId with
      | inl e => (inl e, ch)
      | inr acc =>
          let ix := IxAuthorizePayment (mkIntentData intentId amount expiresAt) acc in
          match send ix ch with
          | (inl e, ch') => (inl e, ch')
          | (inr tx, ch') =>
              (inr (mkAuthResult (Some true) (Some (a_paymentIntent acc))
                                 (a_escrow acc) tx (Some amount)), ch')
          end
      end
  end.

(** [submitUsageProof]: an exception is logged and thrown again. *)
Definition submitUsageProof `{Solana} (i : Instance_)
    (intentId nodeId executionHash logsHash : string) (ch : Chain)
  : (string + ProofResult) * Chain :=
  match i with
  | Mock => (inr (mkProofResult None None "mock-tx"), ch)
  | Real c =>
      match proof_accounts c intentId nodeId with
      | inl e => (inl e, ch)
      | inr acc =>
          let ix := IxSubmitUsageProof
                      (mkUsageProofData intentId nodeId executionHash logsHash)
                      acc [oracleAuthority c] in
          match send ix ch with
          | (inl e, ch') => (inl e, ch')
          | (inr tx, ch') =>
              (inr (mkProofResult (Some true) (Some (a_usageProof acc)) tx), ch')
          end
      end
  end.

(** [generateExecutionHash(logs, result)], with [result] already as JSON
    text. *)
Definition generateExecutionHash `{Solana} (i : Instance_) (logs result : string)
    (now : Z) : string :=
  match i with
  | Mock => "mock-hash"
  | Real _ => sha256_hex (stringify_execution logs result now)
  end.


End Client.

(** ** The facilitator routes *)

Module Routes.

Import Client.

(** A row of the jobs table, with the columns [POST /complete-job] reads
    and the ones [POST /submit-job] wrote beside them. *)
Record Job := mkJob {
  job_id : string;
  intent_id : string;
  escrow_pubkey : string;
  payment_amount : Z;
  created_at : Z
}.

(** The body of [POST /complete-job]. *)
Record CompleteJobBody := mkBody {
  b_jobId : string;
  b_nodeId : string;
  b_success : bool;
  b_logs : string;
  b_result : string
}.

(** The calls the handler makes on the jobs and nodes tables, in order. *)
Inductive DbCall :=
| GetJobById (jobId : string)
| UpdateJobStatus (jobId status : string) (actualTime : Z)
                  (logs result txSignature : string)
| IncrementNodeEarnings (nodeId : string) (amount : Z)
| DecrementNodeReputation (nodeId : string) (points : Z).

Inductive Answer :=
| NotFound
| Completed (jobId proofTx : string) (paymentReleased : bool) (message : string)
| Failed (message : string).


Record Outcome := mkOutcome {
  answer : Answer;
  db_calls : list DbCall;
  chain : Chain
}.

(** [POST /complete-job].  The route has no authentication middleware and
    reads nothing of the caller but the body.  [jobs] is the jobs table as
    [getJobById] sees it. *)
Definition complete_job `{Solana} (facilitatorClient : Instance_) (now : Z)
    (jobs : gmap string Job) (body : CompleteJobBody) (ch : Chain) : Outcome :=
  let jobId := b_jobId body in
  let nodeId := b_nodeId body in
  match jobs !! jobId with
  | None => mkOutcome NotFound [GetJobById jobId] ch
  | Some job =>
      let executionHash :=
        generateExecutionHash facilitatorClient (b_logs body) (b_result body) now in
      let logsHash :=
        generateExecutionHash facilitatorClient (b_logs body)
                              (stringify_timestamp now) now in
      match submitUsageProof facilitatorClient (escrow_pubkey job) nodeId
                             executionHash logsHash ch with
      | (inl e, ch') => mkOutcome (Failed e) [GetJobById jobId] ch'
      | (inr proofResult, ch') =>
          let actualTime := (now - created_at job) `div` 1000 in
          let tx := pr_txSignature proofResult in
          let update :=
            UpdateJobStatus jobId (if b_success body then "completed" else "failed")
                            actualTime (b_logs body) (b_result body) tx in
          let earnings :=
            if b_success body then IncrementNodeEarnings nodeId (payment_amount job)
            else DecrementNodeReputation nodeId 10 in
          mkOutcome
            (Completed jobId tx (b_success body)
               (if b_success body then "Job completed and payment released to node"
                else "Job failed and payment refunded to client"))
            [GetJobById jobId; update; earnings] ch'
      end
  end.

End Routes.

(** ** Traces of operations

    Concurrent callers are modelled by interleaving: every ledger operation
    and every transition of the settlement machine is one atomic step, and
    a trace lists the steps of all callers in the order they take effect,
    each with the time at which it runs. *)






Module Trace.

Import Settlement.

Inductive Op :=
| OVerify (rq : Requirements) (i : PaymentIntent) (sig signer : string)
| OStore (i : PaymentIntent) (sig : string)
| OMarkUsed (id : string)
| OCleanup
| OAuthorize (rq : Requirements) (i : PaymentIntent) (sig : string)
| OSubmitProof (pd : ProofData) (oracleIdentity : string)
| OCancel (id requester : string)
| OExpire (id : string).

Definition step `{Crypto} (now : Z) (op : Op) (m : Machine) : Machine :=
  match op with
  | OVerify rq i sig signer => (verify now rq i sig signer m).2
  | OStore i sig => (ledger_store now i sig m).2
  | OMarkUsed id => (ledger_markUsed id m).2
  | OCleanup => (ledger_cleanup now m).2
  | OAuthorize rq i sig => (authorize now rq i sig m).2
  | OSubmitProof pd o => (submitUsageProof now pd o m).2
  | OCancel id who => (cancel id who m).2
  | OExpire id => (expire now id m).2
  end.

Definition run `{Crypto} (ops : list (Z * Op)) (m : Machine) : Machine :=
  foldl (λ acc op, step op.1 op.2 acc) m ops.

Definition is_verify (op : Z * Op) : bool :=
  match op.2 with
  | OVerify _ _ _ _ => true
  | _ => false
  end.

(** The trace with its verifications taken out. *)
Definition without_verify (ops : list (Z * Op)) : list (Z * Op) :=
  List.filter (λ op, negb (is_verify op)) ops.

(** [verify] called [n] times in a row. *)
Fixpoint verify_times `{Crypto} (n : nat) (now : Z) (rq : Requirements)
    (i : PaymentIntent) (sig signer : string) (m : Machine) : Machine :=
  match n with
  | O => m
  | S k => verify_times k now rq i sig signer (verify now rq i sig signer m).2
  end.

End Trace.

(** ** Concrete instances, for the examples *)

Module Demo.

Definition intent1 : PaymentIntent :=
  mkIntent "intent-1" "alice" 1000000 "job-1" 0 3600000 "nonce-1" [].

Definition hash64 : string :=
  "a3f5c1d2e4b6978800112233445566778899aabbccddeeff0123456789abcdef".

(** A header codec that knows two payloads. *)
Definition decode_demo (h : string) : string + PaymentIntent * string :=
  if String.eqb h "{intent-1,good}" then inr (intent1, "good")
  else if String.eqb h "{intent-1,bad}" then inr (intent1, "bad")
  else inl "Unexpected token in JSON".

Definition verify_demo (now : Z) (i : PaymentIntent) (sig signer : string)
  : VerifyResult :=
  if negb (String.eqb sig "good") then mkVerify false "Invalid signature"
  else if expiresAt i <=? now then mkVerify false "Payment intent has expired"
  else mkVerify true "".

Definition lib : X402Lib := {|
  decode_header := decode_demo;
  X402Verifier_verify := verify_demo
|}.

Definition crypto : Settlement.Crypto := {|
  Settlement.toSigningMessage i := "HYPERNODE Payment Intent " +:+ intentId i;
  Settlement.signature_valid msg sig signer :=
    String.eqb sig ("signed:" +:+ signer +:+ ":" +:+ msg)
|}.

Definition sig1 : string := "signed:alice:HYPERNODE Payment Intent intent-1".

Definition node1 : Settlement.NodeRecord :=
  Settlement.mkNode "node-1" "bob" 0 0 0 true.

(** Alice holds 5000000 units; one node is registered; nothing else. *)
Definition machine0 : Settlement.Machine :=
  Settlement.mkMachine ∅ ∅ {[ "node-1" := node1 ]} ∅ {[ "alice" := 5000000 ]} ∅
                       "oracle" "HYPER".

Definition proof1 : Settlement.ProofData :=
  Settlement.mkProofData "intent-1" "node-1" hash64 hash64 "oracle-sig".

Definition solana : Client.Solana := {|
  Client.HYPER_MINT := "92s9qna3djkMncZzkacyNQ38UKnNXZFh4Jgqe3Cmpump";
  Client.TOKEN_PROGRAM_ID := "TokenkegQfeZyiNwAJbNbGKPFXCWuBvf9Ss623VQ5DA";
  Client.PublicKey_new k := inr k;
  Client.findProgramAddressSync seeds pid :=
    inr ("pda(" +:+ String.concat "," seeds +:+ ")", 255);
  Client.getAssociatedTokenAddress mint owner _ := inr ("ata(" +:+ owner +:+ ")");
  Client.rpc _ _ := inr "tx-signature";
  Client.sha256_hex _ := hash64;
  Client.stringify_execution logs result _ := logs +:+ result;
  Client.stringify_timestamp _ := "{}"
|}.

Definition client1 : Client.FacilitatorClient :=
  Client.mkClient "HYPRfaci11tator1111111111111111111111111111" "oracle".

Definition job1 : Routes.Job :=
  Routes.mkJob "job-1" "intent-1" "pda(escrow,intent-1)" 1000000 0.

Definition demo_jobs : gmap string Routes.Job := {[ "job-1" := job1 ]}.

Definition demo_body : Routes.CompleteJobBody :=
  Routes.mkBody "job-1" "node-1" false "logs" "result".

Definition demo_accounts : Client.ProofAccounts :=
  Client.mkProofAccounts "pda(proof,pda(escrow,intent-1))"
                  "pda(intent,pda(escrow,intent-1))"
                  "pda(node,node-1)" "oracle"
                  "pda(escrow,pda(escrow,intent-1))" "ata(pda(node,node-1))"
                  "TokenkegQfeZyiNwAJbNbGKPFXCWuBvf9Ss623VQ5DA".

Definition demo_ix : Client.Instruction :=
  Client.IxSubmitUsageProof
    (Client.mkUsageProofData "pda(escrow,intent-1)" "node-1" hash64 hash64)
    demo_accounts ["oracle"].

End Demo.

(** ** More of the middleware *)

Module Middleware.

(** A request whose header decodes to [i] with [sig] and passes the
    verifier: the three tests before the first [await]. *)
Definition checked `{X402Lib} (now : Z) (r : Request) (i : PaymentIntent)
    (sig : string) : Prop :=
  ∃ h, header_present r = Some h ∧ decode_header h = inr (i, sig) ∧
       valid (X402Verifier_verify now i sig (client i)) = true.

(** What a request in flight has behind it, by its place in the code. *)
Definition pc_ok `{X402Lib} (now : Z) (r : Request) (pc : Pc) : Prop :=
  match pc with
  | AfterIsUsed i sig _ | AfterStore i sig => checked now r i sig
  | InHandler i => ∃ sig, checked now r i sig
  | AtEntry | Finished _ => True
  end.

(** Every index has a request and a place that fits it; everything handled
    so far came from a checked request. *)
Definition sound `{X402Lib} (now : Z) (reqs : list Request) (pcs : list Pc)
    (w : World) : Prop :=
  (∀ k r pc, reqs !! k = Some r → pcs !! k = Some pc → pc_ok now r pc) ∧
  (∀ i, i ∈ w_handled w → ∃ r sig, r ∈ reqs ∧ checked now r i sig).



(** All requests at the entry of the middleware, nothing handled yet. *)
Definition fresh (reqs : list Request) : list Pc := replicate (length reqs) AtEntry.

End Middleware.

(** ** More of the facilitator client *)

Module ClientOps.

Import Client.

Record RegisterAccounts := mkRegAccounts {
  r_node : string;
  r_authority : string;
  r_stakingAccount : string;
  r_hyperMint : string;
  r_systemProgram : string;
  r_tokenProgram : string
}.

Record ClaimAccounts := mkClaimAccounts {
  c_node : string;
  c_authority : string;
  c_stakingAccount : string;
  c_authorityTokenAccount : string;
  c_tokenProgram : string
}.

(** The transactions of [registerNode] and [claimRewards]. *)
Inductive NodeInstruction :=
| IxRegisterNode (nodeId : string) (stakeAmount : Z) (accounts : RegisterAccounts)
| IxClaimRewards (amount : Z) (accounts : ClaimAccounts).

Abbreviation NodeChain := (list NodeInstruction).

(** The rest of what the client calls outside the repository: the system
    program and the RPC for the node transactions, which can throw. *)
Class Anchor := {
  SYSTEM_PROGRAM_ID : string;
  rpc_node : NodeInstruction → NodeChain → string + string
}.

Record RegisterResult := mkRegResult {
  rr_nodeAccount : string;
  rr_stakingAccount : string;
  rr_txSignature : string
}.

Record ClaimResult := mkClaimResult {
  cr_amount : Z;
  cr_txSignature : string
}.

(** The accounts [registerNode] derives before it sends. *)
Definition register_accounts `{Solana} `{Anchor} (c : FacilitatorClient)
    (authorityPubkey nodeId : string) : string + RegisterAccounts :=
  try_bind (PublicKey_new authorityPubkey) (λ authority,
  try_bind (deriveNodePDA c nodeId) (λ '(nodeAccount, _),
  try_bind (getAssociatedTokenAddress HYPER_MINT nodeAccount true) (λ stakingAccount,
  inr (mkRegAccounts nodeAccount authority stakingAccount HYPER_MINT
                     SYSTEM_PROGRAM_ID TOKEN_PROGRAM_ID)))).

(** The accounts [claimRewards] derives before it sends. *)
Definition claim_accounts `{Solana} (c : FacilitatorClient)
    (authorityPubkey nodeId : string) : string + ClaimAccounts :=
  try_bind (PublicKey_new authorityPubkey) (λ authority,
  try_bind (deriveNodePDA c nodeId) (λ '(nodeAccount, _),
  try_bind (getAssociatedTokenAddress HYPER_MINT nodeAccount true) (λ stakingAccount,
  try_bind (getAssociatedTokenAddress HYPER_MINT authority false) (λ authorityTokenAccount,
  inr (mkClaimAccounts nodeAccount authority stakingAccount authorityTokenAccount
                       TOKEN_PROGRAM_ID))))).

Definition send_node `{Anchor} (ix : NodeInstruction) (ch : NodeChain)
  : (string + string) * NodeChain :=
  match rpc_node ix ch with
  | inl e => (inl e, ch)
  | inr sig => (inr sig, (ch ++ [ix])%list)
  end.

(** [registerNode].  The object literal that stands in for the client has
    no such method: calling it throws a [TypeError]. *)
Definition registerNode `{Solana} `{Anchor} (i : Instance_)
    (authorityPubkey nodeId : string) (stakeAmount : Z) (ch : NodeChain)
  : (string + RegisterResult) * NodeChain :=
  match i with
  | Mock => (inl "facilitatorClient.registerNode is not a function", ch)
  | Real c =>
      match register_accounts c authorityPubkey nodeId with
      | inl e => (inl e, ch)
      | inr acc =>
          match send_node (IxRegisterNode nodeId stakeAmount acc) ch with
          | (inl e, ch') => (inl e, ch')
          | (inr tx, ch') =>
              (inr (mkRegResult (r_node acc) (r_stakingAccount acc) tx), ch')
          end
      end
  end.

(** [claimRewards]; absent from the stand-in object as well. *)
Definition claimRewards `{Solana} `{Anchor} (i : Instance_)
    (authorityPubkey nodeId : string) (amount : Z) (ch : NodeChain)
  : (string + ClaimResult) * NodeChain :=
  match i with
  | Mock => (inl "facilitatorClient.claimRewards is not a function", ch)
  | Real c =>
      match claim_accounts c authorityPubkey nodeId with
      | inl e => (inl e, ch)
      | inr acc =>
          match send_node (IxClaimRewards amount acc) ch with
          | (inl e, ch') => (inl e, ch')
          | (inr tx, ch') => (inr (mkClaimResult amount tx), ch')
          end
      end
  end.

End ClientOps.

(** ** The node routes *)

Module NodeRoutes.

Import Client ClientOps.

(** A request amount is a JavaScript number; [micro_floor a] is
    [Math.floor(a * 1e6)]. *)
Class JsNumber := {
  Number : Type;
  micro_floor : Number → Z
}.

(** The calls on the nodes table, in order. *)
Inductive DbCall :=
| CreateNode (nodeId walletAddress : string)
             (hostname gpuInfo location : option string) (stakeAmount : Z)
| GetNodeById (nodeId : string)
| IncrementNodeEarnings (nodeId : string) (amount : Z).

Record Outcome (A : Type) := mkOutcome {
  answer : A;
  db_calls : list DbCall;
  chain : NodeChain
}.
Arguments mkOutcome {A} answer db_calls chain.
Arguments answer {A} o.
Arguments db_calls {A} o.
Arguments chain {A} o.

(** The body of [POST /register-node]. *)
Record RegisterBody := mkRegisterBody {
  rb_nodeId : string;
  rb_stakeAmount : option Z;
  rb_hostname : option string;
  rb_gpuInfo : option string;
  rb_location : option string
}.

(** [stakeAmount || 0]. *)
Definition stake_or_zero (s : option Z) : Z := default 0 s.

Inductive RegisterAnswer :=
| Registered (result : RegisterResult)
| RegisterFailed (message : string).

(** [POST /register-node], behind [requireAuth]: [walletAddress] is
    [req.user.wallet].  [db_throws] is what [nodes.createNode] does when it
    is called: nothing, or the message it throws. *)
Definition register_node `{Solana} `{Anchor} (facilitatorClient : Instance_)
    (walletAddress : string) (body : RegisterBody) (db_throws : option string)
    (ch : NodeChain) : Outcome RegisterAnswer :=
  let stake := stake_or_zero (rb_stakeAmount body) in
  match registerNode facilitatorClient walletAddress (rb_nodeId body) stake ch with
  | (inl e, ch') => mkOutcome (RegisterFailed e) [] ch'
  | (inr result, ch') =>
      let create := CreateNode (rb_nodeId body) walletAddress (rb_hostname body)
                               (rb_gpuInfo body) (rb_location body) stake in
      match db_throws with
      | Some e => mkOutcome (RegisterFailed e) [create] ch'
      | None => mkOutcome (Registered result) [create] ch'
      end
  end.

(** The body of [POST /claim-rewards]. *)
Record ClaimBody `{JsNumber} := mkClaimBody {
  cb_nodeId : string;
  cb_amount : Number
}.

(** The column of the nodes table the route reads. *)
Record NodeRow := mkNodeRow { wallet_address : string }.

Inductive ClaimAnswer `{JsNumber} :=
| Forbidden
| Claimed (amount : Number) (txSignature : string)
| ClaimFailed (message : string).

(** [node && node.wallet_address === walletAddress]. *)
Definition owned_by (walletAddress : string) (row : option NodeRow) : bool :=
  match row with
  | Some n => String.eqb (wallet_address n) walletAddress
  | None => false
  end.

(** [POST /claim-rewards], behind [requireAuth].  [row] is what
    [nodes.getNodeById] does (it throws, or returns a row or nothing),
    [db_throws] what [incrementNodeEarnings] does when it is called. *)
Definition claim_rewards `{Solana} `{Anchor} `{JsNumber}
    (facilitatorClient : Instance_) (walletAddress : string) (body : ClaimBody)
    (row : string + option NodeRow) (db_throws : option string) (ch : NodeChain)
  : Outcome ClaimAnswer :=
  let nodeId := cb_nodeId body in
  match row with
  | inl e => mkOutcome (ClaimFailed e) [GetNodeById nodeId] ch
  | inr node =>
      if negb (owned_by walletAddress node)
      then mkOutcome Forbidden [GetNodeById nodeId] ch
      else
        let amountInLamports := micro_floor (cb_amount body) in
        match claimRewards facilitatorClient walletAddress nodeId
                           amountInLamports ch with
        | (inl e, ch') => mkOutcome (ClaimFailed e) [GetNodeById nodeId] ch'
        | (inr result, ch') =>
            let update := IncrementNodeEarnings nodeId (- amountInLamports) in
            match db_throws with
            | Some e => mkOutcome (ClaimFailed e) [GetNodeById nodeId; update] ch'
            | None =>
                mkOutcome (Claimed (cb_amount body) (cr_txSignature result))
                          [GetNodeById nodeId; update] ch'
            end
        end
  end.

End NodeRoutes.

(** ** The submit-job route *)

Module SubmitJob.

(** What the route destructures from [req.body]; [estimatedTime] is the
    result of [parseInt] on the field, [None] for [NaN]. *)
Record Body := mkBody {
  jobId : string;
  jobType : option string;
  resourceType : option string;
  description : option string;
  estimatedTime : option Z;
  paymentAmount : string;
  tokenMint : option string;
  wallet : option string
}.

(** [parseInt(x) || d]: [NaN] and 0 give the default. *)
Definition parsed_or (d : Z) (x : option Z) : Z :=
  match x with
  | Some 0 | None => d
  | Some n => n
  end.

(** [s || d] on strings: undefined and the empty string give [d]. *)
Definition string_or (s : option string) (d : string) : string :=
  match s with
  | Some "" | None => d
  | Some v => v
  end.

(** The argument of [createPaymentRequirements]. *)
Record TermsArgs := mkTermsArgs {
  t_jobId : string;
  t_amount : string;
  t_description : option string;
  t_resource : string;
  t_estimatedTime : Z;
  t_tokenMint : string;
  t_jobType : option string;
  t_resourceType : option string
}.

Record Verification := mkVerification {
  v_valid : bool;
  v_error : string;
  v_intent_client : string
}.

Record SettleMeta := mkMeta {
  sm_jobId : string;
  sm_nodeId : option string;
  sm_jobType : option string;
  sm_resourceType : option string
}.

Record Settled := mkSettled {
  s_escrow : string;
  s_txSignature : string;
  s_intentId : string
}.

(** The x402-solana adapter, whose file is not among the sources: the
    types it hands around, its token mint and its five methods.  The two
    asynchronous ones work on a state of the adapter's own and can throw. *)
Class X402Adapter := {
  Headers : Type;
  Payment : Type;
  Terms : Type;
  Response402 : Type;
  AdapterState : Type;
  hyperTokenMint : string;
  extractPayment : Headers → option Payment;
  createPaymentRequirements : TermsArgs → Terms;
  create402Response : Terms → Response402;
  verifyPayment : Payment → Terms → AdapterState → (string + Verification) * AdapterState;
  settlePayment : Payment → Terms → SettleMeta → AdapterState
                  → (string + Settled) * AdapterState
}.

(** The argument of [jobs.createJob]. *)
Record JobArgs := mkJobArgs {
  j_jobId : string;
  j_walletAddress : string;
  j_jobType : option string;
  j_resourceType : option string;
  j_description : option string;
  j_paymentAmount : string;
  j_estimatedTime : Z;
  j_escrowPubkey : string;
  j_txSignature : string;
  j_intentId : string
}.

(** An uploaded file as multer keeps it in memory. *)
Record Upload := mkUpload {
  originalname : string;
  buffer : string;
  mimetype : string
}.

(** [req.files]: the array of uploads of each field. *)
Abbreviation Files := (string → list Upload).

(** The job object after the route has attached the uploads to it. *)
Record LocalJob := mkLocalJob {
  lj_job_id : option string;
  scriptFile : option Upload;
  datasets : option (list Upload)
}.

Definition dataset_key (i : nat) : string :=
  "dataset_" +:+
  match i with
  | 0 => "0" | 1 => "1" | 2 => "2" | 3 => "3" | 4 => "4"
  | 5 => "5" | 6 => "6" | 7 => "7" | 8 => "8" | _ => "9"
  end%nat.

(** The loop over [dataset_0] .. [dataset_9]: the first upload of each
    field that has one. *)
Definition collect_datasets (files : Files) : list Upload :=
  omap (λ i, head (files (dataset_key i))) (seq 0 10).

(** Step 7 of the route: the uploads go on the local job object. *)
Definition attach_files (job_id : option string) (files : option Files) : LocalJob :=
  match files with
  | None => mkLocalJob job_id None None
  | Some f =>
      let ds := collect_datasets f in
      mkLocalJob job_id (head (f "script"))
                 (match ds with [] => None | _ => Some ds end)
  end.

(** What the route has done, in order. *)
Inductive Step :=
| DidVerify
| DidSettle (meta : SettleMeta)
| DidCreateJob (args : JobArgs).

Inductive Answer `{X402Adapter} :=
| NoPayment (response402 : Response402)
| InvalidPayment (message : string)
| Submitted (jobId intentId escrow txSignature : string)
| SubmitFailed (message : string).

Record Outcome `{X402Adapter} := mkOutcome {
  answer : Answer;
  steps : list Step;
  adapter : AdapterState;
  local_job : option LocalJob
}.
Arguments mkOutcome {_} answer steps adapter local_job.

(** Step 2 of the route: the payment requirements of the job. *)
Definition terms_args `{X402Adapter} (b : Body) : TermsArgs :=
  mkTermsArgs (jobId b) (paymentAmount b) (description b)
              "/api/facilitator/submit-job"
              (parsed_or 3600 (estimatedTime b))
              (string_or (tokenMint b) hyperTokenMint)
              (jobType b) (resourceType b).

Definition terms_of `{X402Adapter} (b : Body) : Terms :=
  createPaymentRequirements (terms_args b).

(** [POST /submit-job].  [created] is what [jobs.createJob] does when it
    is called: it throws, or returns a row with its [job_id]. *)
Definition submit_job `{X402Adapter} (headers : Headers) (b : Body)
    (files : option Files) (created : string + option string)
    (st : AdapterState) : Outcome :=
  let paymentRequirements := terms_of b in
  match extractPayment headers with
  | None =>
      mkOutcome (NoPayment (create402Response paymentRequirements)) [] st None
  | Some paymentHeader =>
      match verifyPayment paymentHeader paymentRequirements st with
      | (inl e, st1) => mkOutcome (SubmitFailed e) [DidVerify] st1 None
      | (inr verification, st1) =>
          if negb (v_valid verification)
          then mkOutcome (InvalidPayment (v_error verification)) [DidVerify] st1 None
          else
            let meta := mkMeta (jobId b) None (jobType b) (resourceType b) in
            match settlePayment paymentHeader paymentRequirements meta st1 with
            | (inl e, st2) =>
                mkOutcome (SubmitFailed e) [DidVerify; DidSettle meta] st2 None
            | (inr settlementResult, st2) =>
                let args :=
                  mkJobArgs (jobId b)
                    (string_or (wallet b) (v_intent_client verification))
                    (jobType b) (resourceType b) (description b)
                    (paymentAmount b) (parsed_or 1 (estimatedTime b))
                    (s_escrow settlementResult) (s_txSignature settlementResult)
                    (s_intentId settlementResult) in
                let done := [DidVerify; DidSettle meta; DidCreateJob args] in
                match created with
                | inl e => mkOutcome (SubmitFailed e) done st2 None
                | inr job_id =>
                    let job := attach_files job_id files in
                    mkOutcome
                      (Submitted (string_or (lj_job_id job) (jobId b))
                                 (s_intentId settlementResult)
                                 (s_escrow settlementResult)
                                 (s_txSignature settlementResult))
                      done st2 (Some job)
                end
            end
      end
  end.

End SubmitJob.

(** ** More instances, for the examples *)

Module Demo2.

Import ClientOps NodeRoutes.

Definition anchor : Anchor := {|
  SYSTEM_PROGRAM_ID := "11111111111111111111111111111111";
  rpc_node _ _ := inr "node-tx"
|}.

(** Amounts in whole tokens. *)
Definition whole : JsNumber := {|
  Number := Z;
  micro_floor a := a * 1000000
|}.

Definition register_body : RegisterBody :=
  mkRegisterBody "node-1" None (Some "host-1") None None.

Definition claim_body : @ClaimBody whole := @mkClaimBody whole "node-1" 2.

(** An adapter whose state counts the settlements; the payment is the
    header text and the signature "good" verifies. *)
Definition adapter : SubmitJob.X402Adapter := {|
  SubmitJob.Headers := option string;
  SubmitJob.Payment := string;
  SubmitJob.Terms := SubmitJob.TermsArgs;
  SubmitJob.Response402 := SubmitJob.TermsArgs;
  SubmitJob.AdapterState := nat;
  SubmitJob.hyperTokenMint := "92s9qna3djkMncZzkacyNQ38UKnNXZFh4Jgqe3Cmpump";
  SubmitJob.extractPayment h := h;
  SubmitJob.createPaymentRequirements a := a;
  SubmitJob.create402Response t := t;
  SubmitJob.verifyPayment p _ st :=
    (inr (SubmitJob.mkVerification (String.eqb p "good") "Invalid signature" "alice"), st);
  SubmitJob.settlePayment _ _ _ st :=
    (inr (SubmitJob.mkSettled "pda(escrow,intent-1)" "settle-tx" "intent-1"), S st)
|}.

Definition job_body : SubmitJob.Body :=
  SubmitJob.mkBody "job-1" (Some "inference") (Some "gpu") None None "1000000"
                   None None.

Definition good_headers : @SubmitJob.Headers adapter := Some "good".
Definition state0 : @SubmitJob.AdapterState adapter := 0%nat.
Definition state1 : @SubmitJob.AdapterState adapter := 1%nat.

Definition demo_job_args : SubmitJob.JobArgs :=
  SubmitJob.mkJobArgs "job-1" "alice" (Some "inference") (Some "gpu") None
                      "1000000" 1 "pda(escrow,intent-1)" "settle-tx" "intent-1".


End Demo2.

(** * Properties *)

(** ** The intent ledger *)

Section LedgerFacts.

Implicit Types (l : gmap string LedgerEntry) (e : LedgerEntry) (id : string).

Lemma markUsed_fresh l id e :
  l !! id = Some e → consumed e = false →
  Ledger.markUsed id l = (<[id := set_consumed e]> l, true).
Proof. intros Hl Hc. unfold Ledger.markUsed. by rewrite Hl, Hc. Qed.


Lemma markUsed_absent l id : l !! id = None → Ledger.markUsed id l = (l, false).
Proof. intros Hl. unfold Ledger.markUsed. by rewrite Hl. Qed.

Lemma store_present l now i sig :
  is_Some (l !! intentId i) → Ledger.store now i sig l = l.
Proof. intros [e He]. unfold Ledger.store. by rewrite He. Qed.

Lemma isUsed_store l now i sig id :
  Ledger.isUsed id (Ledger.store now i sig l) = Ledger.isUsed id l.
Proof.
  unfold Ledger.store. destruct (l !! intentId i) as [e|] eqn:Hl; [done|].
  unfold Ledger.isUsed. destruct (decide (intentId i = id)) as [<-|Hne].
  - by rewrite lookup_insert_eq, Hl.
  - by rewrite lookup_insert_ne.
Qed.




End LedgerFacts.


(** ** The signature verifier and the settlement machine *)

Section SettlementFacts.

Import Settlement.
Context `{Crypto}.

Ltac unfold_M :=
  unfold mbind, M_bind, mret, M_ret, bind, ret, read, write in *.

Lemma verify_state now rq i sig signer m :
  (verify now rq i sig signer m).2 = m.
Proof.
  unfold verify.
  repeat (match goal with |- context [if ?b then _ else _] => destruct b end;
          unfold_M; simpl; try done).
Qed.


Lemma verify_used now rq i sig signer m :
  Ledger.isUsed (intentId i) (m_ledger m) = true →
  ∃ err, (verify now rq i sig signer m).1 = Some err.
Proof.
  intros Hu. unfold verify.
  repeat (match goal with |- context [if negb ?b then _ else _] => destruct b end;
          unfold_M; simpl; eauto).
  rewrite Hu. eauto.
Qed.

Lemma authorize_marks now rq i sig m r m' :
  authorize now rq i sig m = (inr r, m') →
  Ledger.isUsed (intentId i) (m_ledger m') = true.
Proof.
  unfold authorize. unfold_M.
  pose proof (verify_state now rq i sig (client i) m) as Hs.
  destruct (verify now rq i sig (client i) m) as [[e|] m0]; simpl in *; [done|].
  subst m0. unfold ledger_store, ledger_markUsed. unfold_M. simpl.
  destruct (Ledger.markUsed _ _) as [l b] eqn:Hm. simpl.
  destruct b; simpl; [|done].
  destruct (balance_of _ _ <? _); simpl; [done|].
  intros [= <- <-]. simpl.
  unfold Ledger.markUsed in Hm.
  destruct (Ledger.store now i sig (m_ledger m) !! intentId i) as [e|]; [|done].
  destruct (consumed e); [done|]. injection Hm as <-.
  unfold Ledger.isUsed. by rewrite lookup_insert_eq.
Qed.

Lemma authorize_rejected now rq i sig m err :
  (verify now rq i sig (client i) m).1 = Some err →
  authorize now rq i sig m = (inl err, m).
Proof.
  intros Hv. unfold authorize. unfold_M.
  pose proof (verify_state now rq i sig (client i) m) as Hs.
  destruct (verify now rq i sig (client i) m) as [v m']. simpl in *. by subst.
Qed.

(** On the modelled machine an intent is authorized once: after a
    successful Authorize every further one fails and changes nothing. *)
Lemma authorize_replay_rejected now rq i sig m r m' now' rq' sig' :
  authorize now rq i sig m = (inr r, m') →
  ∃ err, authorize now' rq' i sig' m' = (inl err, m').
Proof.
  intros Hok. apply authorize_marks in Hok.
  destruct (verify_used now' rq' i sig' (client i) m' Hok) as [err Herr].
  exists err. by apply authorize_rejected.
Qed.





Lemma verify_times_state n now rq i sig signer m :
  Trace.verify_times n now rq i sig signer m = m.
Proof.
  induction n as [|n IH]; simpl; [done|]. by rewrite verify_state.
Qed.

Lemma isUsed_middleware `{X402Lib} now r (st : gmap string LedgerEntry) id :
  Ledger.isUsed id (x402Middleware now r st).2 = Ledger.isUsed id st.
Proof.
  unfold x402Middleware. destruct (mw_check now r) as [resp|i sig]; [done|].
  destruct (Ledger.isUsed (intentId i) st); [done|]. simpl.
  apply isUsed_store.
Qed.

(** C8 (modelled verifier; middleware from the source): [verify] leaves
    the whole machine, ledger and escrow state alike, as it found it, however
    often it is called, and answers the same each time; in any interleaving
    of operations the verifications can be taken out without changing the
    state reached; and the middleware, which calls the verifier, changes the
    consumed flag of no intent: that is left to [markUsed]. *)
Theorem verify_is_pure `{X402Lib} :
  (∀ n now rq i sig signer m,
     Trace.verify_times n now rq i sig signer m = m ∧
     (verify now rq i sig signer (Trace.verify_times n now rq i sig signer m)).1
     = (verify now rq i sig signer m).1) ∧
  (∀ ops m, Trace.run ops m = Trace.run (Trace.without_verify ops) m) ∧
  (∀ now r (st : gmap string LedgerEntry) id,
     Ledger.isUsed id (x402Middleware now r st).2 = Ledger.isUsed id st).
Proof.
  split_and!.
  - intros. by rewrite verify_times_state.
  - intros ops. unfold Trace.run, Trace.without_verify.
    induction ops as [|[now op] ops IH]; intros m; [done|].
    simpl. destruct op; simpl; try apply IH.
    rewrite verify_state. apply IH.
  - intros. apply isUsed_middleware.
Qed.

End SettlementFacts.

Section ExpiredExample.

#[local] Existing Instance Demo.crypto.


End ExpiredExample.

Section Transitions.

Import Settlement.

Lemma unauthorized_oracle_rejected now pd who m :
  who ≠ m_oracle m →
  submitUsageProof now pd who m = (inl UnauthorizedOracle, m).
Proof.
  intros Hne. unfold submitUsageProof.
  by assert (String.eqb who (m_oracle m) = false) as -> by by apply String.eqb_neq.
Qed.

(** C4 (modelled machine): a proof from the trusted oracle for a record
    in [Escrowed], with no proof accepted before, two well-formed hashes
    and a registered, active node, is accepted; the record becomes
    [Settled] with its amount unchanged and the node of the proof assigned;
    what was locked for the intent goes to the node's account and the lock is
    empty; the node's [totalEarned] grows by the amount and its
    [jobsCompleted] by one. *)
Theorem accepted_proof_settles now pd m r n :
  m_escrows m !! pd_intentId pd = Some r →
  er_status r = Escrowed →
  m_proofs m !! pd_intentId pd = None →
  well_formed_hash (pd_executionHash pd) = true →
  well_formed_hash (pd_logsHash pd) = true →
  m_nodes m !! pd_nodeId pd = Some n →
  isActive n = true →
  locked_of (pd_intentId pd) m = er_amount r →
  ∃ r' n' m',
    submitUsageProof now pd (m_oracle m) m = (inr r', m') ∧
    m_escrows m' !! pd_intentId pd = Some r' ∧
    er_status r' = Settled ∧
    er_amount r' = er_amount r ∧
    assignedNodeId r' = Some (pd_nodeId pd) ∧
    balance_of (pd_nodeId pd) m' = balance_of (pd_nodeId pd) m + er_amount r ∧
    locked_of (pd_intentId pd) m' = 0 ∧
    m_nodes m' !! pd_nodeId pd = Some n' ∧
    totalEarned n' = totalEarned n + er_amount r ∧
    jobsCompleted n' = jobsCompleted n + 1.
Proof.
  intros Hr Hst Hp He Hl Hn Ha Hlock.
  unfold submitUsageProof. cbv zeta.
  rewrite String.eqb_refl, Hr, Hst, Hp, He, Hl, Hn, Ha. simpl.
  do 3 eexists. split; [reflexivity|].
  unfold balance_of, locked_of in *; simpl.
  rewrite !lookup_insert_eq. simpl. split_and!; try done.
  unfold balance_of, locked_of; simpl. by rewrite Hlock.
Qed.

End Transitions.

Section SettlementExample.

Import Settlement.
#[local] Existing Instance Demo.crypto.

(** The scenario: an intent of 1000000 signed by its client is
    authorized; the oracle's proof then settles it. *)
Lemma accepted_proof_settles_witness :
  let m1 := (authorize 0 no_requirements Demo.intent1 Demo.sig1 Demo.machine0).2 in
  locked_of "intent-1" m1 = 1000000 ∧
  ∃ r' n' m',
    submitUsageProof 10 Demo.proof1 "oracle" m1 = (inr r', m') ∧
    m_escrows m' !! "intent-1" = Some r' ∧
    er_status r' = Settled ∧
    er_amount r' = 1000000 ∧
    assignedNodeId r' = Some "node-1" ∧
    balance_of "node-1" m' = balance_of "node-1" m1 + 1000000 ∧
    locked_of "intent-1" m' = 0 ∧
    m_nodes m' !! "node-1" = Some n' ∧
    totalEarned n' = totalEarned Demo.node1 + 1000000 ∧
    jobsCompleted n' = jobsCompleted Demo.node1 + 1.
Proof.
  intros m1. split; [reflexivity|].
  apply (accepted_proof_settles 10 Demo.proof1 m1
           (mkEscrow "intent-1" "alice" 1000000 Escrowed None 0 3600000 None)
           Demo.node1); reflexivity.
Defined.

End SettlementExample.

(** ** The middleware *)

Section MiddlewareFacts.

Context `{X402Lib}.
Implicit Types (st : gmap string LedgerEntry) (i : PaymentIntent).

Lemma header_present_some h : h ≠ "" → header_present (mkRequest (Some h)) = Some h.
Proof. intros Hne. unfold header_present; simpl. by destruct h. Qed.

Lemma mw_check_ok now r h i sig :
  header_present r = Some h →
  decode_header h = inr (i, sig) →
  valid (X402Verifier_verify now i sig (client i)) = true →
  mw_check now r = Verified_ok i sig.
Proof. intros Hh Hd Hv. unfold mw_check. by rewrite Hh, Hd, Hv. Qed.

Lemma store_twice now i sig sig' st :
  Ledger.store now i sig' (Ledger.store now i sig st) = Ledger.store now i sig st.
Proof.
  apply store_present. unfold Ledger.store.
  destruct (st !! intentId i) eqn:Hl; [by rewrite Hl|].
  by rewrite lookup_insert_eq.
Qed.

Lemma isUsed_after_mark now i sig st :
  Ledger.isUsed (intentId i) st = false →
  Ledger.isUsed (intentId i)
    (Ledger.markUsed (intentId i) (Ledger.store now i sig st)).1 = true.
Proof.
  intros Hu. unfold Ledger.isUsed in Hu. unfold Ledger.store.
  destruct (st !! intentId i) as [e|] eqn:Hl.
  - rewrite (markUsed_fresh st _ e) by done. simpl.
    unfold Ledger.isUsed. by rewrite lookup_insert_eq.
  - erewrite markUsed_fresh; [|apply lookup_insert_eq|done]. simpl.
    unfold Ledger.isUsed. by rewrite lookup_insert_eq.
Qed.

(** One request after the other, the usage marker of the first having run:
    the second is answered 409 and is not handed to the handler. *)
Lemma replay_after_marker_rejected now h i sig st :
  h ≠ "" →
  decode_header h = inr (i, sig) →
  valid (X402Verifier_verify now i sig (client i)) = true →
  Ledger.isUsed (intentId i) st = false →
  let r := mkRequest (Some h) in
  ∃ st',
    run_schedule now [r; r] [0; 0; 0; 0; 1; 1]%nat [AtEntry; AtEntry] (mkWorld st [])
    = ([Finished None; Finished (Some conflict)], mkWorld st' [i]).
Proof.
  intros Hne Hd Hv Hu r. eexists. simpl.
  rewrite (mw_check_ok now r h i sig) by (try done; by apply header_present_some).
  simpl. rewrite Hu. simpl. rewrite isUsed_after_mark by done. reflexivity.
Qed.

(** C1 (middleware from the source, ledger modelled): two requests
    carrying the same signed intent, the second arriving while the first is
    still between its [isUsed] check and its usage marker.  Both pass the
    check, neither is answered 409, and the intent is handed to the
    downstream handler twice. *)
Theorem concurrent_replay_admitted now h i sig st :
  h ≠ "" →
  decode_header h = inr (i, sig) →
  valid (X402Verifier_verify now i sig (client i)) = true →
  Ledger.isUsed (intentId i) st = false →
  let r := mkRequest (Some h) in
  let end_ := run_schedule now [r; r] [0; 1; 0; 1; 0; 1]%nat [AtEntry; AtEntry]
                           (mkWorld st []) in
  end_ = ([InHandler i; InHandler i], mkWorld (Ledger.store now i sig st) [i; i]) ∧
  count_handled (intentId i) end_.2 = 2%nat.
Proof.
  intros Hne Hd Hv Hu r end_. subst end_. simpl.
  rewrite (mw_check_ok now r h i sig) by (try done; by apply header_present_some).
  simpl. rewrite Hu. simpl. rewrite store_twice. split; [done|].
  unfold count_handled; simpl. rewrite !filter_cons_True by done. done.
Qed.

(** C7 (middleware from the source): a header that does not decode is
    answered 400 Bad Request, a payload whose verification fails is answered
    402 Payment Required with the verifier's reason in the message; in both
    cases the ledger is what it was, sequentially and as the first step of
    an interleaved run; and the two answers are never equal. *)
Theorem malformed_and_unverified_rejected now r h st (w : World) :
  header_present r = Some h →
  (∀ msg, decode_header h = inl msg →
     x402Middleware now r st = (Responded (bad_request msg), st) ∧
     mw_step now r AtEntry w = (Finished (Some (bad_request msg)), w) ∧
     status (bad_request msg) = 400) ∧
  (∀ i sig, decode_header h = inr (i, sig) →
     valid (X402Verifier_verify now i sig (client i)) = false →
     let reason := error (X402Verifier_verify now i sig (client i)) in
     x402Middleware now r st = (Responded (payment_required reason), st) ∧
     mw_step now r AtEntry w = (Finished (Some (payment_required reason)), w) ∧
     status (payment_required reason) = 402 ∧
     resp_message (payment_required reason) = "x402: " +:+ reason) ∧
  (∀ msg reason, bad_request msg ≠ payment_required reason).
Proof.
  intros Hh. split_and!.
  - intros msg Hd. unfold x402Middleware, mw_step, mw_check. by rewrite Hh, Hd.
  - intros i sig Hd Hv reason. subst reason.
    unfold x402Middleware, mw_step, mw_check. by rewrite Hh, Hd, Hv.
  - intros msg reason Heq. unfold bad_request, payment_required in Heq.
    by injection Heq.
Qed.

End MiddlewareFacts.

Section MiddlewareExamples.

#[local] Existing Instance Demo.lib.

Lemma concurrent_replay_admitted_witness :
  let r := mkRequest (Some "{intent-1,good}") in
  let end_ := run_schedule 0 [r; r] [0; 1; 0; 1; 0; 1]%nat [AtEntry; AtEntry]
                           (mkWorld ∅ []) in
  end_ = ([InHandler Demo.intent1; InHandler Demo.intent1],
          mkWorld (Ledger.store 0 Demo.intent1 "good" ∅)
                  [Demo.intent1; Demo.intent1]) ∧
  count_handled "intent-1" end_.2 = 2%nat.
Proof.
  apply (concurrent_replay_admitted 0 "{intent-1,good}" Demo.intent1 "good" ∅).
  - discriminate.
  - reflexivity.
  - reflexivity.
  - reflexivity.
Defined.

Lemma malformed_and_unverified_rejected_witness :
  x402Middleware 0 (mkRequest (Some "not json")) ∅
  = (Responded (bad_request "Unexpected token in JSON"), ∅) ∧
  x402Middleware 0 (mkRequest (Some "{intent-1,bad}")) ∅
  = (Responded (payment_required "Invalid signature"), ∅).
Proof.
  split.
  - destruct (malformed_and_unverified_rejected 0 (mkRequest (Some "not json"))
                "not json" ∅ (mkWorld ∅ []) eq_refl) as (Hbad & _ & _).
    apply (Hbad "Unexpected token in JSON" eq_refl).
  - destruct (malformed_and_unverified_rejected 0
                (mkRequest (Some "{intent-1,bad}")) "{intent-1,bad}" ∅
                (mkWorld ∅ []) eq_refl) as (_ & Hsig & _).
    apply (Hsig Demo.intent1 "bad" eq_refl eq_refl).
Defined.

End MiddlewareExamples.

(** ** The oracle service, the client and the routes *)

Section ClientFacts.

Import Client Routes.
Context `{Solana}.

Lemma try_bind_inr {A B} (x : string + A) (k : A → string + B) b :
  try_bind x k = inr b → ∃ a, x = inr a ∧ k a = inr b.
Proof. destruct x as [e|a]; simpl; [done|]. eauto. Qed.

Lemma proof_accounts_derivation c intentId nodeId acc :
  proof_accounts c intentId nodeId = inr acc →
  (∃ bump, findProgramAddressSync ["proof"; intentId] (programId c)
           = inr (a_usageProof acc, bump)) ∧
  (∃ bump, findProgramAddressSync ["intent"; intentId] (programId c)
           = inr (a_proofPaymentIntent acc, bump)) ∧
  (∃ bump, findProgramAddressSync ["escrow"; intentId] (programId c)
           = inr (a_proofEscrow acc, bump)) ∧
  a_oracle acc = oracleAuthority c.
Proof.
  unfold proof_accounts. intros Hacc.
  apply try_bind_inr in Hacc as ([usageProof b1] & H1 & Hacc).
  apply try_bind_inr in Hacc as ([paymentIntent b2] & H2 & Hacc).
  apply try_bind_inr in Hacc as ([nodeAccount b3] & H3 & Hacc).
  apply try_bind_inr in Hacc as ([escrow b4] & H4 & Hacc).
  apply try_bind_inr in Hacc as (nodeTokenAccount & H5 & Hacc).
  injection Hacc as <-. simpl.
  unfold deriveUsageProofPDA, derivePaymentIntentPDA, derive in *. eauto 10.
Qed.



(** C5 (oracle service from the source): the answer of
    [POST /submit-usage] is the same for every two reports and it is
    [accepted]; the report with no field at all is accepted, and nothing is
    sent on.  No check and no score stand between a report and its
    acceptance. *)
Theorem attestation_runs_no_check :
  (∀ a b, OracleService.submit_usage a = OracleService.submit_usage b) ∧
  (∀ a, OracleService.accepted (OracleService.submit_usage a).1 = true ∧
        (OracleService.submit_usage a).2 = []) ∧
  OracleService.submit_usage (OracleService.mkReport None None None None)
  = (OracleService.mkReply 200 "accepted", []).
Proof.
  split_and!.
  - by intros [] [].
  - by intros [].
  - done.
Qed.


(** C10 (route and client from the source): for a job that exists,
    [POST /complete-job] calls [submitUsageProof] with the job's
    [escrow_pubkey] in the place of the intent identifier.  The usage-proof
    and payment-intent addresses of the transaction are the ones derived
    from the seeds ["proof"] and ["intent"] with that escrow key, and the
    [intentId] of the proof data is that key, not the [intent_id] stored in
    the same row. *)
Theorem complete_job_passes_escrow_key c now jobs body job ch :
  jobs !! b_jobId body = Some job →
  let executionHash :=
    generateExecutionHash (Real c) (b_logs body) (b_result body) now in
  let logsHash :=
    generateExecutionHash (Real c) (b_logs body) (stringify_timestamp now) now in
  chain (complete_job (Real c) now jobs body ch)
  = (submitUsageProof (Real c) (escrow_pubkey job) (b_nodeId body)
                      executionHash logsHash ch).2 ∧
  ∀ ix, chain (complete_job (Real c) now jobs body ch) = (ch ++ [ix])%list →
    ∃ data acc signers bump1 bump2,
      ix = IxSubmitUsageProof data acc signers ∧
      p_intentId data = escrow_pubkey job ∧
      findProgramAddressSync ["proof"; escrow_pubkey job] (programId c)
      = inr (a_usageProof acc, bump1) ∧
      findProgramAddressSync ["intent"; escrow_pubkey job] (programId c)
      = inr (a_proofPaymentIntent acc, bump2).
Proof.
  intros Hjob executionHash logsHash.
  assert (chain (complete_job (Real c) now jobs body ch)
          = (submitUsageProof (Real c) (escrow_pubkey job) (b_nodeId body)
                              executionHash logsHash ch).2) as Hchain.
  { unfold complete_job. rewrite Hjob. cbv zeta.
    fold executionHash logsHash.
    by destruct (submitUsageProof _ _ _ _ _ _) as [[e|res] ch']. }
  split; [done|]. rewrite Hchain. clear Hchain.
  intros ix. unfold submitUsageProof, send.
  destruct (proof_accounts c (escrow_pubkey job) (b_nodeId body)) as [e|acc] eqn:Hacc.
  - simpl. intros Heq. apply (f_equal length) in Heq.
    rewrite length_app in Heq. simpl in Heq. lia.
  - cbv zeta. destruct (rpc _ ch) as [e|tx]; simpl.
    + intros Heq. apply (f_equal length) in Heq.
      rewrite length_app in Heq. simpl in Heq. lia.
    + intros Heq. apply app_inv_head in Heq. injection Heq as <-.
      apply proof_accounts_derivation in Hacc
        as ([b1 H1] & [b2 H2] & _ & _).
      do 5 eexists. by split_and!.
Qed.

End ClientFacts.

Section ClientExamples.

Import Client Routes.
#[local] Existing Instance Demo.solana.



Lemma complete_job_passes_escrow_key_witness :
  escrow_pubkey Demo.job1 ≠ intent_id Demo.job1 ∧
  ∃ data acc signers bump1 bump2,
    Demo.demo_ix = IxSubmitUsageProof data acc signers ∧
    p_intentId data = "pda(escrow,intent-1)" ∧
    findProgramAddressSync ["proof"; "pda(escrow,intent-1)"]
                           (programId Demo.client1)
    = inr (a_usageProof acc, bump1) ∧
    findProgramAddressSync ["intent"; "pda(escrow,intent-1)"]
                           (programId Demo.client1)
    = inr (a_proofPaymentIntent acc, bump2).
Proof.
  split; [discriminate|].
  apply (proj2 (complete_job_passes_escrow_key Demo.client1 5000 Demo.demo_jobs
                  Demo.demo_body Demo.job1 [] eq_refl) Demo.demo_ix).
  reflexivity.
Defined.

End ClientExamples.

(** * Further properties of the code *)

(** ** The middleware under arbitrary schedules *)

Section MiddlewareInvariants.

Import Middleware.
Context `{X402Lib}.

Lemma mw_check_checked now r i sig :
  mw_check now r = Verified_ok i sig → checked now r i sig.
Proof.
  unfold mw_check, checked.
  destruct (header_present r) as [h|]; [|done].
  destruct (decode_header h) as [msg|[i' sig']] eqn:Hd; [done|].
  destruct (valid _) eqn:Hv; [|done].
  intros [= <- <-]. eauto.
Qed.

Lemma mw_step_pc_ok now r pc w :
  pc_ok now r pc → pc_ok now r (mw_step now r pc w).1.
Proof.
  destruct pc as [|i sig [|]|i sig|i|resp]; simpl; try done.
  - intros _. destruct (mw_check now r) as [resp|i sig] eqn:Hc; simpl; [done|].
    by apply mw_check_checked.
  - eauto.
Qed.

Lemma mw_step_handled now r pc w :
  pc_ok now r pc →
  w_handled (mw_step now r pc w).2 = w_handled w ∨
  ∃ i sig, checked now r i sig ∧
           w_handled (mw_step now r pc w).2 = (w_handled w ++ [i])%list.
Proof.
  destruct pc as [|i sig [|]|i sig|i|resp]; simpl; eauto.
  destruct (mw_check now r); simpl; eauto.
Qed.

Lemma sound_run now reqs sched : ∀ pcs w,
  sound now reqs pcs w → sound now reqs (run_schedule now reqs sched pcs w).1
                                (run_schedule now reqs sched pcs w).2.
Proof.
  induction sched as [|k sched IH]; intros pcs w Hs; [done|]. simpl.
  destruct (reqs !! k) as [r|] eqn:Hr; [|by apply IH].
  destruct (pcs !! k) as [pc|] eqn:Hpc; [|by apply IH].
  destruct Hs as [Hpcs Hh].
  pose proof (mw_step_pc_ok now r pc w (Hpcs k r pc Hr Hpc)) as Hok.
  pose proof (mw_step_handled now r pc w (Hpcs k r pc Hr Hpc)) as Hhd.
  destruct (mw_step now r pc w) as [pc' w']. simpl in *.
  apply IH. split.
  - intros k' r' pc'' Hr' Hl.
    destruct (decide (k = k')) as [<-|Hne].
    + rewrite list_lookup_insert_eq in Hl by (by eapply lookup_lt_Some).
      injection Hl as <-. by replace r' with r by congruence.
    + rewrite list_lookup_insert_ne in Hl by done. eauto.
  - intros i Hi. destruct Hhd as [Heq|(i' & sig & Hc & Heq)]; rewrite Heq in Hi.
    + by apply Hh.
    + apply elem_of_app in Hi as [Hi|Hi]; [by apply Hh|].
      apply list_elem_of_singleton in Hi as ->.
      exists r, sig. split; [|done]. by eapply list_elem_of_lookup_2.
Qed.

Lemma sound_fresh now reqs st : sound now reqs (fresh reqs) (mkWorld st []).
Proof.
  split.
  - intros k r pc _ Hl. unfold fresh in Hl.
    apply lookup_replicate in Hl as [-> _]. done.
  - intros i Hi. simpl in Hi. by apply elem_of_nil in Hi.
Qed.

(** X1: whatever the requests and whatever the order in which their steps
    run, an intent reaches the downstream handler only if one of the requests
    carried a header that decodes to it and that the verifier accepted. *)
Theorem handled_only_if_verified now reqs sched st i :
  i ∈ w_handled (run_schedule now reqs sched (fresh reqs) (mkWorld st [])).2 →
  ∃ r h sig,
    r ∈ reqs ∧ header_present r = Some h ∧ decode_header h = inr (i, sig) ∧
    valid (X402Verifier_verify now i sig (client i)) = true.
Proof.
  intros Hi.
  destruct (sound_run now reqs sched _ _ (sound_fresh now reqs st)) as [_ Hh].
  destruct (Hh i Hi) as (r & sig & Hr & h & Hhd & Hd & Hv).
  by exists r, h, sig.
Qed.









End MiddlewareInvariants.

Section MiddlewareInvariantExamples.

#[local] Existing Instance Demo.lib.

Lemma handled_only_if_verified_witness :
  ∃ r h sig,
    r ∈ [mkRequest (Some "{intent-1,bad}"); mkRequest (Some "{intent-1,good}")] ∧
    header_present r = Some h ∧ decode_header h = inr (Demo.intent1, sig) ∧
    valid (X402Verifier_verify 0 Demo.intent1 sig (client Demo.intent1)) = true.
Proof.
  apply (handled_only_if_verified 0
           [mkRequest (Some "{intent-1,bad}"); mkRequest (Some "{intent-1,good}")]
           [1; 0; 1; 0; 1]%nat ∅ Demo.intent1).
  vm_compute. constructor.
Defined.



End MiddlewareInvariantExamples.

(** ** The client: what is sent, and to which accounts *)

Section ClientSendFacts.

Import Client.
Context `{Solana}.

Lemma authorize_accounts_derivation c who intentId acc :
  authorize_accounts c who intentId = inr acc →
  PublicKey_new who = inr (a_client acc) ∧
  (∃ bump, findProgramAddressSync ["intent"; intentId] (programId c)
           = inr (a_paymentIntent acc, bump)) ∧
  (∃ bump, findProgramAddressSync ["escrow"; intentId] (programId c)
           = inr (a_escrow acc, bump)).
Proof.
  unfold authorize_accounts. intros Hacc.
  apply try_bind_inr in Hacc as (client & H1 & Hacc).
  apply try_bind_inr in Hacc as ([paymentIntent b2] & H2 & Hacc).
  apply try_bind_inr in Hacc as ([escrow b3] & H3 & Hacc).
  apply try_bind_inr in Hacc as (cta & H4 & Hacc).
  apply try_bind_inr in Hacc as (eta & H5 & Hacc).
  injection Hacc as <-. simpl.
  unfold derivePaymentIntentPDA, derive in *. eauto 10.
Qed.


(** X6: when a payment is authorized and its usage proof is then
    submitted under the same intent identifier, the two transactions name
    the same escrow and the same payment-intent account, and the escrow
    returned to the caller of [authorizePayment] is that account. *)
Theorem authorize_and_proof_share_accounts c who intentId amount expiresAt
    nodeId executionHash logsHash ch res ch1 proof ch2 :
  authorizePayment (Real c) who intentId amount expiresAt ch = (inr res, ch1) →
  submitUsageProof (Real c) intentId nodeId executionHash logsHash ch1
  = (inr proof, ch2) →
  ∃ acc pacc,
    ch2 = (ch ++ [IxAuthorizePayment (mkIntentData intentId amount expiresAt) acc;
                  IxSubmitUsageProof
                    (mkUsageProofData intentId nodeId executionHash logsHash)
                    pacc [oracleAuthority c]])%list ∧
    a_proofEscrow pacc = a_escrow acc ∧
    a_proofPaymentIntent pacc = a_paymentIntent acc ∧
    ar_escrow res = a_escrow acc ∧
    ar_amount res = Some amount.
Proof.
  unfold authorizePayment, submitUsageProof, send.
  destruct (authorize_accounts c who intentId) as [e|acc] eqn:Hacc; [done|].
  cbv zeta. destruct (rpc _ ch) as [e|tx]; [done|]. intros [= <- <-].
  destruct (proof_accounts c intentId nodeId) as [e|pacc] eqn:Hpacc; [done|].
  cbv zeta. destruct (rpc _ _) as [e|tx']; [done|]. intros [= <- <-].
  exists acc, pacc. simpl.
  apply authorize_accounts_derivation in Hacc as (_ & [b1 H1] & [b2 H2]).
  apply proof_accounts_derivation in Hpacc as (_ & [b3 H3] & [b4 H4] & _).
  rewrite H1 in H3. rewrite H2 in H4.
  injection H3 as -> _. injection H4 as -> _.
  by rewrite <- app_assoc.
Qed.

End ClientSendFacts.

Section ClientSendExamples.

Import Client.
#[local] Existing Instance Demo.solana.

Lemma authorize_and_proof_share_accounts_witness :
  ∃ acc pacc,
    (submitUsageProof (Real Demo.client1) "intent-1" "node-1" Demo.hash64
       Demo.hash64
       (authorizePayment (Real Demo.client1) "alice" "intent-1" 1000000 3600000
          []).2).2
    = ([] ++ [IxAuthorizePayment (mkIntentData "intent-1" 1000000 3600000) acc;
              IxSubmitUsageProof
                (mkUsageProofData "intent-1" "node-1" Demo.hash64 Demo.hash64)
                pacc [oracleAuthority Demo.client1]])%list ∧
    a_proofEscrow pacc = a_escrow acc ∧
    a_proofPaymentIntent pacc = a_paymentIntent acc ∧
    "pda(escrow,intent-1)" = a_escrow acc ∧
    Some 1000000 = Some 1000000.
Proof.
  apply (authorize_and_proof_share_accounts Demo.client1 "alice" "intent-1"
           1000000 3600000 "node-1" Demo.hash64 Demo.hash64 []
           (mkAuthResult (Some true) (Some "pda(intent,intent-1)")
                         "pda(escrow,intent-1)" "tx-signature" (Some 1000000))
           (authorizePayment (Real Demo.client1) "alice" "intent-1" 1000000
              3600000 []).2
           (mkProofResult (Some true) (Some "pda(proof,intent-1)")
                            "tx-signature"));
    reflexivity.
Defined.

End ClientSendExamples.

(** ** The node routes *)

Section NodeRouteFacts.

Import Client ClientOps NodeRoutes.
Context `{Solana} `{Anchor} `{JsNumber}.

Lemma claim_accounts_derivation c who nodeId acc :
  claim_accounts c who nodeId = inr acc →
  PublicKey_new who = inr (c_authority acc) ∧
  ∃ bump, findProgramAddressSync ["node"; nodeId] (programId c)
          = inr (c_node acc, bump).
Proof.
  unfold claim_accounts. intros Hacc.
  apply try_bind_inr in Hacc as (authority & Hd1 & Hacc).
  apply try_bind_inr in Hacc as ([nodeAccount b] & Hd2 & Hacc).
  apply try_bind_inr in Hacc as (staking & Hd3 & Hacc).
  apply try_bind_inr in Hacc as (ata & Hd4 & Hacc).
  injection Hacc as <-. simpl. unfold deriveNodePDA, derive in Hd2. eauto.
Qed.

Lemma register_accounts_derivation c who nodeId acc :
  register_accounts c who nodeId = inr acc →
  PublicKey_new who = inr (r_authority acc) ∧
  ∃ bump, findProgramAddressSync ["node"; nodeId] (programId c)
          = inr (r_node acc, bump).
Proof.
  unfold register_accounts. intros Hacc.
  apply try_bind_inr in Hacc as (authority & Hd1 & Hacc).
  apply try_bind_inr in Hacc as ([nodeAccount b] & Hd2 & Hacc).
  apply try_bind_inr in Hacc as (staking & Hd3 & Hacc).
  injection Hacc as <-. simpl. unfold deriveNodePDA, derive in Hd2. eauto.
Qed.

(** X7: [POST /claim-rewards] lowers the earnings of a node in the
    database only after the claim transaction was accepted, only for the
    caller who owns the node, and by exactly the amount the transaction
    claimed. *)
Theorem claim_books_what_was_claimed i wallet (body : ClaimBody) row db ch n d :
  IncrementNodeEarnings n d ∈ db_calls (claim_rewards i wallet body row db ch) →
  ∃ c acc tx r,
    i = Real c ∧ row = inr (Some r) ∧ wallet_address r = wallet ∧
    n = cb_nodeId body ∧ d = - micro_floor (cb_amount body) ∧
    chain (claim_rewards i wallet body row db ch)
    = (ch ++ [IxClaimRewards (- d) acc])%list ∧
    rpc_node (IxClaimRewards (- d) acc) ch = inr tx ∧
    PublicKey_new wallet = inr (c_authority acc).
Proof.
  unfold claim_rewards, owned_by. cbv zeta.
  destruct row as [e|[r|]]; simpl;
    try (intros Hin; apply list_elem_of_singleton in Hin; done).
  destruct (String.eqb (wallet_address r) wallet) eqn:Hw; simpl;
    [|intros Hin; apply list_elem_of_singleton in Hin; done].
  apply String.eqb_eq in Hw.
  unfold claimRewards, send_node. destruct i as [c|]; simpl;
    [|intros Hin; apply list_elem_of_singleton in Hin; done].
  destruct (claim_accounts c wallet (cb_nodeId body)) as [e|acc] eqn:Hacc; simpl;
    [intros Hin; apply list_elem_of_singleton in Hin; done|].
  destruct (rpc_node _ ch) as [e|tx] eqn:Hrpc; simpl;
    [intros Hin; apply list_elem_of_singleton in Hin; done|].
  apply claim_accounts_derivation in Hacc as [Hpk _].
  assert (∀ calls,
    calls = [GetNodeById (cb_nodeId body);
             IncrementNodeEarnings (cb_nodeId body) (- micro_floor (cb_amount body))] →
    IncrementNodeEarnings n d ∈ calls →
    n = cb_nodeId body ∧ d = - micro_floor (cb_amount body)) as Hcalls.
  { intros calls -> Hin. apply elem_of_cons in Hin as [Hin|Hin]; [done|].
    apply list_elem_of_singleton in Hin. by injection Hin as -> ->. }
  destruct db as [e|]; simpl; intros Hin;
    destruct (Hcalls _ eq_refl Hin) as [-> ->];
    exists c, acc, tx, r; rewrite Z.opp_involutive; by split_and!.
Qed.

(** X8: [POST /register-node] writes a node to the database only after
    the registration transaction was accepted, with the same node
    identifier and the same stake as the transaction, an absent stake being
    0 in both. *)
Theorem register_books_what_was_registered i wallet body db ch n w h g l s :
  CreateNode n w h g l s ∈ db_calls (register_node i wallet body db ch) →
  ∃ c acc tx,
    i = Real c ∧
    n = rb_nodeId body ∧ w = wallet ∧ s = default 0 (rb_stakeAmount body) ∧
    chain (register_node i wallet body db ch)
    = (ch ++ [IxRegisterNode n s acc])%list ∧
    rpc_node (IxRegisterNode n s acc) ch = inr tx ∧
    PublicKey_new wallet = inr (r_authority acc).
Proof.
  unfold register_node, registerNode, send_node. cbv zeta.
  destruct i as [c|]; simpl; [|by intros Hin%elem_of_nil].
  destruct (register_accounts c wallet (rb_nodeId body)) as [e|acc] eqn:Hacc;
    simpl; [by intros Hin%elem_of_nil|].
  destruct (rpc_node _ ch) as [e|tx] eqn:Hrpc; simpl; [by intros Hin%elem_of_nil|].
  apply register_accounts_derivation in Hacc as [Hpk _].
  destruct db as [e|]; simpl; intros Hin;
    apply list_elem_of_singleton in Hin; injection Hin as -> -> -> -> -> ->;
    by exists c, acc, tx.
Qed.

End NodeRouteFacts.

Section NodeRouteExamples.

Import Client ClientOps NodeRoutes.
#[local] Existing Instance Demo.solana.
#[local] Existing Instance Demo2.anchor.
#[local] Existing Instance Demo2.whole.

Lemma claim_books_what_was_claimed_witness :
  ∃ c acc tx r,
    Real Demo.client1 = Real c ∧
    (inr (Some (mkNodeRow "bob")) : string + option NodeRow) = inr (Some r) ∧
    wallet_address r = "bob" ∧
    "node-1" = cb_nodeId Demo2.claim_body ∧
    -2000000 = - micro_floor (cb_amount Demo2.claim_body) ∧
    chain (claim_rewards (Real Demo.client1) "bob" Demo2.claim_body
             (inr (Some (mkNodeRow "bob"))) None [])
    = ([] ++ [IxClaimRewards (- -2000000) acc])%list ∧
    rpc_node (IxClaimRewards (- -2000000) acc) [] = inr tx ∧
    PublicKey_new "bob" = inr (c_authority acc).
Proof.
  apply (claim_books_what_was_claimed (Real Demo.client1) "bob" Demo2.claim_body
           (inr (Some (mkNodeRow "bob"))) None [] "node-1" (-2000000)).
  apply elem_of_cons. right. apply list_elem_of_singleton. reflexivity.
Defined.

Lemma register_books_what_was_registered_witness :
  ∃ c acc tx,
    Real Demo.client1 = Real c ∧
    "node-1" = rb_nodeId Demo2.register_body ∧ "bob" = "bob" ∧
    0 = default 0 (rb_stakeAmount Demo2.register_body) ∧
    chain (register_node (Real Demo.client1) "bob" Demo2.register_body None [])
    = ([] ++ [IxRegisterNode "node-1" 0 acc])%list ∧
    rpc_node (IxRegisterNode "node-1" 0 acc) [] = inr tx ∧
    PublicKey_new "bob" = inr (r_authority acc).
Proof.
  apply (register_books_what_was_registered (Real Demo.client1) "bob"
           Demo2.register_body None [] "node-1" "bob" (Some "host-1") None None 0).
  apply list_elem_of_singleton. reflexivity.
Defined.

End NodeRouteExamples.

(** ** Completing a job *)

Section CompleteJobFacts.

Import Client Routes.
Context `{Solana}.


(** X10: a node is credited in the database only for a job that exists,
    that was reported successful and whose proof submission returned; the
    credit is the [payment_amount] of the job's row and goes to the node
    named in the body. *)
Theorem earnings_only_after_proof i now jobs body ch n a :
  IncrementNodeEarnings n a ∈ db_calls (complete_job i now jobs body ch) →
  ∃ job res ch',
    jobs !! b_jobId body = Some job ∧
    b_success body = true ∧
    n = b_nodeId body ∧ a = payment_amount job ∧
    submitUsageProof i (escrow_pubkey job) (b_nodeId body)
      (generateExecutionHash i (b_logs body) (b_result body) now)
      (generateExecutionHash i (b_logs body) (stringify_timestamp now) now) ch
    = (inr res, ch') ∧
    chain (complete_job i now jobs body ch) = ch'.
Proof.
  unfold complete_job.
  destruct (jobs !! b_jobId body) as [job|];
    [|intros Hin; apply list_elem_of_singleton in Hin; done].
  cbv zeta.
  destruct (submitUsageProof _ _ _ _ _ _) as [[e|res] ch'] eqn:Hp; simpl;
    [intros Hin; apply list_elem_of_singleton in Hin; done|].
  intros Hin. apply elem_of_cons in Hin as [Hin|Hin]; [done|].
  apply elem_of_cons in Hin as [Hin|Hin]; [done|].
  apply list_elem_of_singleton in Hin.
  destruct (b_success body); [|done]. injection Hin as -> ->.
  by exists job, res, ch'.
Qed.

End CompleteJobFacts.

Section CompleteJobExamples.

Import Client Routes.
#[local] Existing Instance Demo.solana.


Lemma earnings_only_after_proof_witness :
  ∃ job res ch',
    Demo.demo_jobs !! "job-1" = Some job ∧
    true = true ∧
    "node-1" = "node-1" ∧ 1000000 = payment_amount job ∧
    submitUsageProof Mock (escrow_pubkey job) "node-1" "mock-hash" "mock-hash" []
    = (inr res, ch') ∧
    chain (complete_job Mock 5000 Demo.demo_jobs
             (mkBody "job-1" "node-1" true "logs" "result") []) = ch'.
Proof.
  apply (earnings_only_after_proof Mock 5000 Demo.demo_jobs
           (mkBody "job-1" "node-1" true "logs" "result") [] "node-1" 1000000).
  apply elem_of_cons. right. apply elem_of_cons. right.
  apply list_elem_of_singleton. reflexivity.
Defined.

End CompleteJobExamples.

(** ** Submitting a job *)

Section SubmitJobFacts.

Import SubmitJob.
Context `{X402Adapter}.

(** X11: a job row is written only after the payment was settled, and it
    records that settlement: its [escrowPubkey], [txSignature] and
    [intentId] are the ones [settlePayment] returned, and its wallet is the
    body's, or the client of the verified intent when the body names none. *)
Theorem job_row_records_settlement headers b files created st args :
  DidCreateJob args ∈ steps (submit_job headers b files created st) →
  ∃ payment v st1 s,
    extractPayment headers = Some payment ∧
    verifyPayment payment (terms_of b) st = (inr v, st1) ∧
    v_valid v = true ∧
    settlePayment payment (terms_of b)
                  (mkMeta (jobId b) None (jobType b) (resourceType b)) st1
    = (inr s, adapter (submit_job headers b files created st)) ∧
    j_escrowPubkey args = s_escrow s ∧
    j_txSignature args = s_txSignature s ∧
    j_intentId args = s_intentId s ∧
    j_walletAddress args = string_or (wallet b) (v_intent_client v).
Proof.
  unfold submit_job. cbv zeta.
  destruct (extractPayment headers) as [payment|]; [|by intros Hin%elem_of_nil].
  destruct (verifyPayment payment (terms_of b) st) as [[e|v] st1] eqn:Hv;
    [intros Hin; apply list_elem_of_singleton in Hin; done|].
  destruct (v_valid v) eqn:Hvalid; simpl;
    [|intros Hin; apply list_elem_of_singleton in Hin; done].
  destruct (settlePayment _ _ _ _) as [[e|s] st2] eqn:Hs.
  { simpl. intros Hin. apply elem_of_cons in Hin as [Hin|Hin]; [done|].
    by apply list_elem_of_singleton in Hin. }
  assert (∀ steps0 a0, steps0 = [DidVerify;
                                 DidSettle (mkMeta (jobId b) None (jobType b)
                                                   (resourceType b));
                                 DidCreateJob a0] →
          DidCreateJob args ∈ steps0 → args = a0) as Hlast.
  { intros steps0 a0 -> Hin. apply elem_of_cons in Hin as [Hin|Hin]; [done|].
    apply elem_of_cons in Hin as [Hin|Hin]; [done|].
    apply list_elem_of_singleton in Hin. by injection Hin. }
  destruct created as [e|job_id]; simpl; intros Hin;
    rewrite (Hlast _ _ eq_refl Hin); by exists payment, v, st1, s.
Qed.

(** X12: the two defaults of the estimated time differ.  When the body's
    [estimatedTime] does not parse or is 0 the payment requirements say
    3600 and the job row says 1; otherwise both carry the parsed number. *)
Theorem estimated_time_defaults_differ headers b files created st args :
  DidCreateJob args ∈ steps (submit_job headers b files created st) →
  (j_estimatedTime args = t_estimatedTime (terms_args b)
   ↔ ∃ n, estimatedTime b = Some n ∧ n ≠ 0) ∧
  (estimatedTime b = None ∨ estimatedTime b = Some 0 →
   t_estimatedTime (terms_args b) = 3600 ∧ j_estimatedTime args = 1).
Proof.
  intros Hin.
  assert (j_estimatedTime args = parsed_or 1 (estimatedTime b)) as ->.
  { revert Hin. unfold submit_job. cbv zeta.
    destruct (extractPayment headers) as [payment|]; [|by intros Hin%elem_of_nil].
    destruct (verifyPayment _ _ _) as [[e|v] st1];
      [intros Hin; apply list_elem_of_singleton in Hin; done|].
    destruct (v_valid v); simpl;
      [|intros Hin; apply list_elem_of_singleton in Hin; done].
    destruct (settlePayment _ _ _ _) as [[e|s] st2]; [|destruct created];
      simpl; intros Hin;
      (apply elem_of_cons in Hin as [Hin|Hin]; [done|]);
      (apply elem_of_cons in Hin as [Hin|Hin]; [done|]);
      try (by apply elem_of_nil in Hin);
      apply list_elem_of_singleton in Hin; by injection Hin as ->. }
  simpl. destruct (estimatedTime b) as [[|p|p]|]; simpl.
  - split; [|done]. split; [done|]. by intros (n & [= <-] & Hn).
  - split; [|by intros [?|?]]. split; [|done]. intros _. by eexists.
  - split; [|by intros [?|?]]. split; [|done]. intros _. by eexists.
  - split; [|done]. split; [done|]. by intros (n & ? & _).
Qed.

End SubmitJobFacts.

Section SubmitJobExamples.

Import SubmitJob.
#[local] Existing Instance Demo2.adapter.

Lemma job_row_records_settlement_witness :
  ∃ payment v st1 s,
    extractPayment Demo2.good_headers = Some payment ∧
    verifyPayment payment (terms_of Demo2.job_body) Demo2.state0 = (inr v, st1) ∧
    v_valid v = true ∧
    settlePayment payment (terms_of Demo2.job_body)
                  (mkMeta (jobId Demo2.job_body) None (jobType Demo2.job_body)
                          (resourceType Demo2.job_body)) st1
    = (inr s,
       adapter (submit_job Demo2.good_headers Demo2.job_body None
                  (inr (Some "job-1")) Demo2.state0)) ∧
    "pda(escrow,intent-1)" = s_escrow s ∧
    "settle-tx" = s_txSignature s ∧
    "intent-1" = s_intentId s ∧
    "alice" = string_or (wallet Demo2.job_body) (v_intent_client v).
Proof.
  apply (job_row_records_settlement Demo2.good_headers Demo2.job_body None
           (inr (Some "job-1")) Demo2.state0 Demo2.demo_job_args).
  apply elem_of_cons. right. apply elem_of_cons. right.
  apply list_elem_of_singleton. reflexivity.
Defined.

Lemma estimated_time_defaults_differ_witness :
  (1 = t_estimatedTime (terms_args Demo2.job_body)
   ↔ ∃ n, estimatedTime Demo2.job_body = Some n ∧ n ≠ 0) ∧
  (estimatedTime Demo2.job_body = None ∨ estimatedTime Demo2.job_body = Some 0 →
   t_estimatedTime (terms_args Demo2.job_body) = 3600 ∧ 1 = 1).
Proof.
  apply (estimated_time_defaults_differ Demo2.good_headers Demo2.job_body None
           (inr (Some "job-1")) Demo2.state0 Demo2.demo_job_args).
  apply elem_of_cons. right. apply elem_of_cons. right.
  apply list_elem_of_singleton. reflexivity.
Defined.

End SubmitJobExamples.
